(** * horo-rag: the per-tenant retrieval-and-answer service

    A shallow embedding of [backend/chat_service.py] (class [ChatService]),
    of the models of [backend/models.py] and of the route handlers of
    [backend/main.py].

    Modelling choices.
    - Python [str] values are Rocq [string]s: sequences of 8-bit characters.
      [str.lower] is modelled on that alphabet (the letters A-Z are mapped to
      a-z, every other character is kept), [len] is [String.length] and the
      operator [in] between two strings is the substring test [str_in].
    - Python [int] is [Z]; [float] is the kernel's binary64 [float], so the
      literals 0.9, 0.3, 0.8 and 0.0 denote the same values as in Python.
    - The two dictionaries of the service are [gmap]s keyed by tenant id.
    - The collaborators that are not code of this repository (hashlib's md5,
      LlamaIndex's vector index and its query engine, the message of
      pydantic's ValidationError) are the fields of an [Env] record; a call
      that can raise returns a [result].
    - [upload_document] and [query] are [async def] bodies without a single
      [await]: each call runs to completion on the event loop, so a run of
      the service is a sequence of whole operations. *)

From Stdlib Require Import PrimFloat ZArith Ascii Lia.
From stdpp Require Import gmap strings list pretty.

Set Warnings "-inexact-float".

#[local] Arguments String.append !_ _ / : simpl nomatch.

(** * Part I: the model *)

(** ** Strings *)

Module Str.

(** [c.lower()] for one character. *)
Definition lower_char (c : ascii) : ascii :=
  let n := nat_of_ascii c in
  if (65 <=? n)%nat && (n <=? 90)%nat then ascii_of_nat (n + 32) else c.

(** [s.lower()]. *)
Fixpoint lower (s : string) : string :=
  match s with
  | EmptyString => EmptyString
  | String c s' => String (lower_char c) (lower s')
  end.

(** [sub in s]: [sub] occurs in [s] as a contiguous substring. *)
Fixpoint str_in (sub s : string) : bool :=
  String.prefix sub s ||
  match s with
  | EmptyString => false
  | String _ s' => str_in sub s'
  end.

(** [any(word in s for word in words)]. *)
Definition any_in (words : list string) (s : string) : bool :=
  existsb (fun word => str_in word s) words.

(** [s[:n]]. *)
Definition slice_to (n : nat) (s : string) : string := String.substring 0 n s.

(** The declarative reading of a substring occurrence. *)
Definition occurs (sub s : string) : Prop :=
  exists pre post, s = pre +:+ sub +:+ post.

(** Case-insensitive occurrence: some substring of [s] equals [w] up to
    letter case. *)
Definition occurs_ci (w s : string) : Prop :=
  exists pre mid post, s = pre +:+ mid +:+ post /\ lower mid = lower w.

Definition any_occurs_ci (words : list string) (s : string) : Prop :=
  exists w, In w words /\ occurs_ci w s.

End Str.

Export Str.

(** ** Exceptions

    A Python call either returns a value or raises; an exception is carried
    as its message [str(e)]. *)

Inductive result (A : Type) : Type :=
| Ok (a : A)
| Raise (msg : string).

Arguments Ok {A} a.
Arguments Raise {A} msg.

Definition bind {A B : Type} (r : result A) (k : A -> result B) : result B :=
  match r with
  | Ok a => k a
  | Raise msg => Raise msg
  end.

Notation "x <~ r ;; k" := (bind r (fun x => k))
  (at level 100, r at next level, right associativity).

(** The truth value of a list in a condition: empty lists are false. *)
Definition truthy {A : Type} (l : list A) : bool :=
  match l with
  | [] => false
  | _ :: _ => true
  end.

(** [try: body except Exception as e: handler(str(e))]. *)
Definition try_except {A : Type} (body : result A) (handler : string -> result A)
  : result A :=
  match body with
  | Ok a => Ok a
  | Raise msg => handler msg
  end.

(** ** models.py *)

Module Citation.
Record t : Type := mk {
  document : string;
  page : Z;
  document_type : string;
  confidence : float
}.
End Citation.

Module QueryResponse.
Record t : Type := mk {
  answer : string;
  citations : list Citation.t;
  confidence : float;
  has_knowledge_gap : bool;
  suggestions : option (list string)
}.
End QueryResponse.

Module DocumentInfo.
Record t : Type := mk {
  id : string;
  name : string;
  type : string;
  pages : Z;
  status : string
}.
End DocumentInfo.

(** ** The objects exchanged with LlamaIndex

    [metadata] is the dictionary that [upload_document] attaches to a
    document and that comes back on every retrieved node. It is read with
    [metadata.get(key, default)], so each of its keys may be absent; a key
    that is present holds a value of the type [upload_document] writes. *)

Record Metadata : Type := {
  md_filename : option string;
  md_document_type : option string;
  md_tenant_id : option string;
  md_doc_id : option string;
  md_pages : option Z
}.

(** [Document(text=..., metadata=...)]. *)
Record Document : Type := {
  doc_text : string;
  doc_metadata : Metadata
}.

(** The attribute [score] of a retrieved node: the object has no such
    attribute ([hasattr(node, 'score')] is false), or it has one and the
    attribute holds [None] (LlamaIndex's [NodeWithScore] declares
    [score: Optional[float] = None], so this is every node that was given no
    score), or it holds a float. *)
Inductive Score : Type :=
| NoAttribute
| ScoreNone
| ScoreFloat (s : float).

(** A retrieved node. *)
Record Node : Type := {
  text : string;
  metadata : Metadata;
  score : Score
}.

(** The value returned by [query_engine.query(question)]. *)
Module Response.
Record t : Type := mk {
  response : string;
  source_nodes : list Node
}.
End Response.

(** ** The collaborators outside this repository

    - [Index] is [VectorStoreIndex]; [new_index] is [VectorStoreIndex([])].
    - [index_insert idx d] is [idx.insert(d)]: it yields the index as the call
      leaves it, and either returns or raises.
    - [engine_query idx k mode q] is
      [idx.as_query_engine(similarity_top_k=k, response_mode=mode).query(q)];
      it reads the index it is called on and leaves it as it is.
    - [md5_hexdigest s] is [hashlib.md5(s.encode()).hexdigest()], always 32
      hexadecimal characters.
    - [validation_error] is [str(e)] of the ValidationError that pydantic
      raises when [Citation] is given [confidence=None]. *)

Record Env : Type := {
  Index : Type;
  new_index : Index;
  index_insert : Index -> Document -> Index * result unit;
  engine_query : Index -> nat -> string -> string -> result Response.t;
  md5_hexdigest : string -> string;
  md5_hexdigest_length : forall s, String.length (md5_hexdigest s) = 32%nat;
  validation_error : string
}.

(** ** chat_service.py *)

Section Service.

Context (E : Env).

(** The two attributes set by [__init__]. *)
Record ChatService : Type := {
  tenant_indices : gmap string (Index E);
  tenant_documents : gmap string (list DocumentInfo.t)
}.

Definition init : ChatService :=
  {| tenant_indices := ∅; tenant_documents := ∅ |}.

Definition detect_document_type (filename content : string) : string :=
  let name := lower filename in
  let content_lower := lower content in
  if any_in ["policy"; "procedure"; "rule"] name then "Policy"
  else if any_in ["handbook"; "manual"; "guide"] name then "Handbook"
  else if any_in ["finance"; "financial"; "budget"; "revenue"] name then "Finance"
  else if any_in ["loan"; "credit"; "lending"] content_lower then "Policy"
  else if any_in ["onboard"; "training"; "employee"] content_lower then "Handbook"
  else "Document".

Definition estimate_pages (content : string) : Z :=
  Z.max 1 (Z.of_nat (String.length content) / 2000).

(** [upload_document] returns the service as the call leaves it together
    with the value returned or the exception raised. *)
Definition upload_document (self : ChatService) (tenant_id filename content : string)
  : ChatService * result DocumentInfo.t :=
  let doc_id := slice_to 8 (md5_hexdigest E (tenant_id +:+ "_" +:+ filename)) in
  let doc_type := detect_document_type filename content in
  let pages := estimate_pages content in
  let document :=
    {| doc_text := content;
       doc_metadata :=
         {| md_filename := Some filename;
            md_document_type := Some doc_type;
            md_tenant_id := Some tenant_id;
            md_doc_id := Some doc_id;
            md_pages := Some pages |} |} in
  (* if tenant_id not in self.tenant_indices: *)
  let self1 :=
    match tenant_indices self !! tenant_id with
    | None =>
        {| tenant_indices := <[tenant_id := new_index E]> (tenant_indices self);
           tenant_documents := <[tenant_id := []]> (tenant_documents self) |}
    | Some _ => self
    end in
  (* self.tenant_indices[tenant_id].insert(document) *)
  match tenant_indices self1 !! tenant_id with
  | None => (self1, Raise "KeyError")
  | Some idx =>
      let '(idx', outcome) := index_insert E idx document in
      let self2 :=
        {| tenant_indices := <[tenant_id := idx']> (tenant_indices self1);
           tenant_documents := tenant_documents self1 |} in
      match outcome with
      | Raise msg => (self2, Raise msg)
      | Ok _ =>
          let doc_info :=
            DocumentInfo.mk doc_id filename doc_type pages "ready" in
          (* self.tenant_documents[tenant_id].append(doc_info) *)
          match tenant_documents self2 !! tenant_id with
          | None => (self2, Raise "KeyError")
          | Some docs =>
              ({| tenant_indices := tenant_indices self2;
                  tenant_documents :=
                    <[tenant_id := docs ++ [doc_info]]> (tenant_documents self2) |},
               Ok doc_info)
          end
      end
  end.

(** [Citation(document=..., page=..., document_type=..., confidence=...)]:
    pydantic checks the arguments against the fields that models.py
    declares. [confidence: float] does not admit [None]: the constructor
    then raises a ValidationError. *)
Definition new_Citation (document : string) (page : Z) (document_type : string)
           (confidence : option float) : result Citation.t :=
  match confidence with
  | Some c => Ok (Citation.mk document page document_type c)
  | None => Raise (validation_error E)
  end.

(** The loop stops at the first node whose citation cannot be built: the
    exception leaves [extract_citations] and the citations built so far are
    lost. *)
Definition extract_citations (source_nodes : list Node) (tenant_id : string)
  : result (list Citation.t) :=
  fold_left
    (fun acc node =>
       citations <~ acc ;;
       let metadata := metadata node in
       citation <~
         new_Citation
           (default "Unknown" (md_filename metadata))
           (Z.min (default 1%Z (md_pages metadata))
                  (Z.max 1 (Z.of_nat (String.length (text node)) / 500)))
           (default "Document" (md_document_type metadata))
           (* node.score if hasattr(node, 'score') else 0.8 *)
           (match score node with
            | NoAttribute => Some 0.8%float
            | ScoreNone => None
            | ScoreFloat s => Some s
            end) ;;
       Ok (citations ++ [citation]))
    source_nodes (Ok []).

Definition detect_knowledge_gap (question answer : string) : bool * list string :=
  let question_lower := lower question in
  let answer_lower := lower answer in
  let gap_indicators :=
    ["don't have information"; "not found"; "no information"; "unable to find"] in
  let has_gap := any_in gap_indicators answer_lower in
  let suggestions :=
    if any_in ["loan"; "credit"; "lending"] question_lower then
      ["Loan Policy Document"; "Credit Guidelines"; "Lending Procedures"]
    else if any_in ["onboard"; "training"; "employee"] question_lower then
      ["Employee Handbook"; "Training Manual"; "HR Policies"]
    else if any_in ["finance"; "revenue"; "cac"; "budget"] question_lower then
      ["Financial Reports"; "Budget Documents"; "Growth Metrics"]
    else if any_in ["customer"; "client"; "acquisition"] question_lower then
      ["Customer Data"; "Sales Reports"; "Marketing Analytics"]
    else
      ["Business Documents"; "Policy Manual"; "Operational Guidelines"] in
  (has_gap, suggestions).

(** [query] does not assign to any attribute of the service, so it returns
    only its outcome. *)
Definition query (self : ChatService) (tenant_id question : string)
  : result QueryResponse.t :=
  match tenant_indices self !! tenant_id with
  | None =>
      Ok (QueryResponse.mk
            "I don't have any documents to search. Please upload your business documents first."
            [] 0.0%float true
            (Some ["Business Documents"; "Policy Manual"]))
  | Some idx =>
      try_except
        (response <~ engine_query E idx 3 "compact" question ;;
         citations <~
           extract_citations (Response.source_nodes response) tenant_id ;;
         let '(has_gap, suggestions) :=
           detect_knowledge_gap question (Response.response response) in
         let confidence :=
           if truthy citations
              && (50 <? String.length (Response.response response))%nat
           then 0.9%float else 0.3%float in
         Ok (QueryResponse.mk
               (Response.response response)
               citations
               confidence
               has_gap
               (if has_gap then Some suggestions else None)))
        (fun e =>
           Ok (QueryResponse.mk
                 ("I encountered an error while searching your documents: " +:+ e)
                 [] 0.0%float true
                 (Some ["Please try rephrasing your question"])))
  end.

Definition get_documents (self : ChatService) (tenant_id : string)
  : list DocumentInfo.t :=
  default [] (tenant_documents self !! tenant_id).

End Service.

Arguments tenant_indices {E} _.
Arguments tenant_documents {E} _.
Arguments init {E}.
Arguments upload_document {E} self tenant_id filename content.
Arguments query {E} self tenant_id question.
Arguments get_documents {E} self tenant_id.
Arguments new_Citation {E} document page document_type confidence.
Arguments extract_citations {E} source_nodes tenant_id.

(** ** Runs of the service

    The three methods that main.py calls on the service, a call with its
    reply, and a run as a sequence of calls. *)

Inductive Call : Type :=
| Upload (tenant_id filename content : string)
| Query (tenant_id question : string)
| GetDocuments (tenant_id : string).

Inductive Reply : Type :=
| Uploaded (r : result DocumentInfo.t)
| Answered (r : result QueryResponse.t)
| Listed (l : list DocumentInfo.t).

Definition tenant_of (call : Call) : string :=
  match call with
  | Upload tenant_id _ _ => tenant_id
  | Query tenant_id _ => tenant_id
  | GetDocuments tenant_id => tenant_id
  end.

Section Runs.

Context {E : Env}.

Definition serve (self : ChatService E) (call : Call) : ChatService E * Reply :=
  match call with
  | Upload tenant_id filename content =>
      let '(self', r) := upload_document self tenant_id filename content in
      (self', Uploaded r)
  | Query tenant_id question => (self, Answered (query self tenant_id question))
  | GetDocuments tenant_id => (self, Listed (get_documents self tenant_id))
  end.

(** The service after a sequence of calls. *)
Definition run (self : ChatService E) (calls : list Call) : ChatService E :=
  fold_left (fun s call => fst (serve s call)) calls self.

(** The replies that the calls made under [tenant_id] receive in a run. *)
Fixpoint replies_to (tenant_id : string) (self : ChatService E) (calls : list Call)
  : list Reply :=
  match calls with
  | [] => []
  | call :: calls' =>
      let '(self', reply) := serve self call in
      if decide (tenant_of call = tenant_id)
      then reply :: replies_to tenant_id self' calls'
      else replies_to tenant_id self' calls'
  end.

(** What the service holds for one tenant: its index and its catalog. *)
Definition corpus (self : ChatService E) (tenant_id : string)
  : option (Index E) * option (list DocumentInfo.t) :=
  (tenant_indices self !! tenant_id, tenant_documents self !! tenant_id).

(** The record that [upload_document] builds for a document. *)
Definition document_info (tenant_id filename content : string) : DocumentInfo.t :=
  DocumentInfo.mk
    (slice_to 8 (md5_hexdigest E (tenant_id +:+ "_" +:+ filename)))
    filename
    (detect_document_type filename content)
    (estimate_pages content)
    "ready".

End Runs.

(** ** main.py

    The bodies of the route handlers. A handler returns a value, raises
    [HTTPException(status_code, detail)], or raises another exception,
    carried as its message. Two facts about exceptions that the handlers
    depend on are parameters: [str_http status detail] is [str(e)] for an
    [HTTPException], and [is_unicode_decode_error msg] tells whether the
    exception of message [msg] raised by a collaborator is a
    [UnicodeDecodeError]. [HTTPException] is a subclass of [Exception] and
    not of [UnicodeDecodeError]. *)

Module QueryRequest.
Record t : Type := mk {
  tenant_id : string;
  question : string
}.
End QueryRequest.

Inductive handled (A : Type) : Type :=
| Return (a : A)
| HTTPException (status_code : Z) (detail : string)
| Exception (msg : string).

Arguments Return {A} a.
Arguments HTTPException {A} status_code detail.
Arguments Exception {A} msg.

(** [c.isspace()] for one character of the model's alphabet, the code
    points 0 to 255: the whitespace characters there are 9 to 13, 28 to 32,
    133 (next line) and 160 (no-break space). *)
Definition is_space (c : ascii) : bool :=
  let n := nat_of_ascii c in
  ((9 <=? n)%nat && (n <=? 13)%nat) || ((28 <=? n)%nat && (n <=? 32)%nat)
  || (n =? 133)%nat || (n =? 160)%nat.

(** [s.lstrip()], [s.rstrip()] and [s.strip()]. *)
Fixpoint lstrip (s : string) : string :=
  match s with
  | EmptyString => EmptyString
  | String c s' => if is_space c then lstrip s' else s
  end.

Fixpoint rstrip (s : string) : string :=
  match s with
  | EmptyString => EmptyString
  | String c s' =>
      match rstrip s' with
      | EmptyString => if is_space c then EmptyString else String c EmptyString
      | String c' r => String c (String c' r)
      end
  end.

Definition strip (s : string) : string := rstrip (lstrip s).

Module Main.

Section Routes.

Context {E : Env}.
Context (str_http : Z -> string -> string).
Context (is_unicode_decode_error : string -> bool).

(** [POST /upload]. [file_read] is the outcome of
    [(await file.read()).decode('utf-8', errors='ignore')]: decoding with
    [errors='ignore'] cannot raise, reading can. *)
Definition upload_document (self : ChatService E) (file_read : result string)
           (filename x_tenant_id : string)
  : ChatService E * handled DocumentInfo.t :=
  (* try: *)
  let '(self', body) :=
    match file_read with
    | Raise msg => (self, Exception msg)
    | Ok text_content =>
        if (String.length (strip text_content) <? 50)%nat
        then (self, HTTPException 400 "Document too short or empty")
        else
          let '(self', r) :=
            upload_document self x_tenant_id filename text_content in
          (self',
           match r with
           | Ok doc_info => Return doc_info
           | Raise msg => Exception msg
           end)
    end in
  (self',
   match body with
   | Return doc_info => Return doc_info
   | Exception msg =>
       (* except UnicodeDecodeError: *)
       if is_unicode_decode_error msg
       then HTTPException 400 "Unable to read file. Please upload text-based documents."
       (* except Exception as e: *)
       else HTTPException 500 ("Upload failed: " +:+ msg)
   | HTTPException status_code detail =>
       (* except Exception as e: *)
       HTTPException 500 ("Upload failed: " +:+ str_http status_code detail)
   end).

(** [POST /query]. *)
Definition query_documents (self : ChatService E) (request : QueryRequest.t)
           (x_tenant_id : string)
  : handled QueryResponse.t :=
  if negb (bool_decide (QueryRequest.tenant_id request = x_tenant_id))
  then HTTPException 403 "Tenant ID mismatch"
  else
    match query self (QueryRequest.tenant_id request) (QueryRequest.question request) with
    | Ok response => Return response
    | Raise msg => Exception msg
    end.

(** [GET /documents]. *)
Definition list_documents (self : ChatService E) (x_tenant_id : string)
  : list DocumentInfo.t :=
  get_documents self x_tenant_id.

End Routes.

End Main.

(** ** Definitions used to state the properties *)

(** The classifier as the specification words it: six rules, the first
    that applies decides; a keyword matches when it occurs in the text up to
    letter case. *)
Inductive classify (filename content : string) : string -> Prop :=
| classify_policy_name :
    any_occurs_ci ["policy"; "procedure"; "rule"] filename ->
    classify filename content "Policy"
| classify_handbook_name :
    ~ any_occurs_ci ["policy"; "procedure"; "rule"] filename ->
    any_occurs_ci ["handbook"; "manual"; "guide"] filename ->
    classify filename content "Handbook"
| classify_finance_name :
    ~ any_occurs_ci ["policy"; "procedure"; "rule"] filename ->
    ~ any_occurs_ci ["handbook"; "manual"; "guide"] filename ->
    any_occurs_ci ["finance"; "financial"; "budget"; "revenue"] filename ->
    classify filename content "Finance"
| classify_policy_content :
    ~ any_occurs_ci ["policy"; "procedure"; "rule"] filename ->
    ~ any_occurs_ci ["handbook"; "manual"; "guide"] filename ->
    ~ any_occurs_ci ["finance"; "financial"; "budget"; "revenue"] filename ->
    any_occurs_ci ["loan"; "credit"; "lending"] content ->
    classify filename content "Policy"
| classify_handbook_content :
    ~ any_occurs_ci ["policy"; "procedure"; "rule"] filename ->
    ~ any_occurs_ci ["handbook"; "manual"; "guide"] filename ->
    ~ any_occurs_ci ["finance"; "financial"; "budget"; "revenue"] filename ->
    ~ any_occurs_ci ["loan"; "credit"; "lending"] content ->
    any_occurs_ci ["onboard"; "training"; "employee"] content ->
    classify filename content "Handbook"
| classify_default :
    ~ any_occurs_ci ["policy"; "procedure"; "rule"] filename ->
    ~ any_occurs_ci ["handbook"; "manual"; "guide"] filename ->
    ~ any_occurs_ci ["finance"; "financial"; "budget"; "revenue"] filename ->
    ~ any_occurs_ci ["loan"; "credit"; "lending"] content ->
    ~ any_occurs_ci ["onboard"; "training"; "employee"] content ->
    classify filename content "Document".

(** The value of [node.score if hasattr(node, 'score') else 0.8]: [None]
    when the attribute exists and holds [None]. *)
Definition confidence_of (node : Node) : option float :=
  match score node with
  | NoAttribute => Some 0.8%float
  | ScoreNone => None
  | ScoreFloat s => Some s
  end.

(** The citation that one pass of the loop of [extract_citations] appends
    for a node whose confidence is [c]. *)
Definition citation_of (node : Node) (c : float) : Citation.t :=
  Citation.mk
    (default "Unknown" (md_filename (metadata node)))
    (Z.min (default 1%Z (md_pages (metadata node)))
           (Z.max 1 (Z.of_nat (String.length (text node)) / 500)))
    (default "Document" (md_document_type (metadata node)))
    c.

(** The citations of a list of nodes, node by node: the first node whose
    score is [None] makes the whole extraction raise. *)
Fixpoint citations_of (E : Env) (nodes : list Node) : result (list Citation.t) :=
  match nodes with
  | [] => Ok []
  | node :: nodes' =>
      match confidence_of node with
      | None => Raise (validation_error E)
      | Some c =>
          match citations_of E nodes' with
          | Ok citations => Ok (citation_of node c :: citations)
          | Raise msg => Raise msg
          end
      end
  end.

(** The response of the branch taken when the tenant has no index. *)
Definition no_documents_response : QueryResponse.t :=
  QueryResponse.mk
    "I don't have any documents to search. Please upload your business documents first."
    [] 0.0%float true (Some ["Business Documents"; "Policy Manual"]).

(** The document that [upload_document] hands to the index. *)
Definition document_of {E : Env} (tenant_id filename content : string) : Document :=
  {| doc_text := content;
     doc_metadata :=
       {| md_filename := Some filename;
          md_document_type := Some (detect_document_type filename content);
          md_tenant_id := Some tenant_id;
          md_doc_id :=
            Some (slice_to 8 (md5_hexdigest E (tenant_id +:+ "_" +:+ filename)));
          md_pages := Some (estimate_pages content) |} |}.

(** The two dictionaries of the service have the same keys. *)
Definition consistent {E : Env} (self : ChatService E) : Prop :=
  forall tenant_id,
    is_Some (tenant_indices self !! tenant_id)
    <-> is_Some (tenant_documents self !! tenant_id).

(** The records returned by the successful uploads among some replies. *)
Fixpoint uploaded (replies : list Reply) : list DocumentInfo.t :=
  match replies with
  | [] => []
  | Uploaded (Ok d) :: replies' => d :: uploaded replies'
  | _ :: replies' => uploaded replies'
  end.

(** The contents uploaded under a tenant in a sequence of calls, with their
    file names, in the order of the calls. *)
Fixpoint uploads_of (tenant_id : string) (calls : list Call) : list (string * string) :=
  match calls with
  | [] => []
  | Upload t filename content :: calls' =>
      if decide (t = tenant_id)
      then (filename, content) :: uploads_of tenant_id calls'
      else uploads_of tenant_id calls'
  | _ :: calls' => uploads_of tenant_id calls'
  end.

(** The index that results from inserting documents one after the other. *)
Definition insert_all {E : Env} (tenant_id : string) (idx : Index E)
           (files : list (string * string)) : Index E :=
  fold_left
    (fun idx file => fst (index_insert E idx (document_of (E := E) tenant_id file.1 file.2)))
    files idx.

(** The suggestions as the source orders them: five rules on the question,
    the first that applies decides; a keyword matches when it occurs in the
    question up to letter case. *)
Inductive suggest (question : string) : list string -> Prop :=
| suggest_loan :
    any_occurs_ci ["loan"; "credit"; "lending"] question ->
    suggest question ["Loan Policy Document"; "Credit Guidelines"; "Lending Procedures"]
| suggest_staff :
    ~ any_occurs_ci ["loan"; "credit"; "lending"] question ->
    any_occurs_ci ["onboard"; "training"; "employee"] question ->
    suggest question ["Employee Handbook"; "Training Manual"; "HR Policies"]
| suggest_finance :
    ~ any_occurs_ci ["loan"; "credit"; "lending"] question ->
    ~ any_occurs_ci ["onboard"; "training"; "employee"] question ->
    any_occurs_ci ["finance"; "revenue"; "cac"; "budget"] question ->
    suggest question ["Financial Reports"; "Budget Documents"; "Growth Metrics"]
| suggest_customer :
    ~ any_occurs_ci ["loan"; "credit"; "lending"] question ->
    ~ any_occurs_ci ["onboard"; "training"; "employee"] question ->
    ~ any_occurs_ci ["finance"; "revenue"; "cac"; "budget"] question ->
    any_occurs_ci ["customer"; "client"; "acquisition"] question ->
    suggest question ["Customer Data"; "Sales Reports"; "Marketing Analytics"]
| suggest_default :
    ~ any_occurs_ci ["loan"; "credit"; "lending"] question ->
    ~ any_occurs_ci ["onboard"; "training"; "employee"] question ->
    ~ any_occurs_ci ["finance"; "revenue"; "cac"; "budget"] question ->
    ~ any_occurs_ci ["customer"; "client"; "acquisition"] question ->
    suggest question ["Business Documents"; "Policy Manual"; "Operational Guidelines"].

(** The response of the branch taken when the query engine raises. *)
Definition error_response (e : string) : QueryResponse.t :=
  QueryResponse.mk
    ("I encountered an error while searching your documents: " +:+ e)
    [] 0.0%float true (Some ["Please try rephrasing your question"]).

(** The response built from what the query engine returns and the
    citations extracted from it. *)
Definition normal_response (question : string) (resp : Response.t)
           (citations : list Citation.t) : QueryResponse.t :=
  QueryResponse.mk
    (Response.response resp)
    citations
    (if truthy citations
        && (50 <? String.length (Response.response resp))%nat
     then 0.9%float else 0.3%float)
    (fst (detect_knowledge_gap question (Response.response resp)))
    (if fst (detect_knowledge_gap question (Response.response resp))
     then Some (snd (detect_knowledge_gap question (Response.response resp)))
     else None).

(** ** Sample collaborators

    Environments on which the service can be run: [memory] keeps the
    inserted documents and answers every question from the first [k] of
    them, each with a score; [unscored] does the same and gives the nodes no
    score; [no_model] indexes documents but its query engine raises;
    [offline] stands for an unreachable model server, every call to which
    raises; [insert_down] fails every insertion while its query engine
    answers from what the index holds. [digest] is a stand-in of the shape of
    an md5 hex digest, [validation_message] a stand-in for the text of
    pydantic's ValidationError. *)

Module Sample.

Definition zeros32 : string := "00000000000000000000000000000000".

Definition digest (s : string) : string := slice_to 32 (s +:+ zeros32).

Lemma substring_length (n : nat) (s : string) :
  (n <= String.length s)%nat -> String.length (String.substring 0 n s) = n.
Proof.
  revert s. induction n as [|n IH]; intros [|c s] H; simpl in *;
    try reflexivity; try lia.
  f_equal. apply IH. lia.
Qed.

Lemma append_length (a b : string) :
  String.length (a +:+ b) = (String.length a + String.length b)%nat.
Proof. induction a as [|c a IH]; simpl; [reflexivity | now rewrite IH]. Qed.

Lemma digest_length (s : string) : String.length (digest s) = 32%nat.
Proof.
  unfold digest, slice_to. apply substring_length.
  rewrite append_length. change (String.length zeros32) with 32%nat. lia.
Qed.

Definition validation_message : string := "1 validation error for Citation".

Definition node_of (d : Document) : Node :=
  {| text := doc_text d; metadata := doc_metadata d; score := ScoreFloat 0.5%float |}.

Definition unscored_node_of (d : Document) : Node :=
  {| text := doc_text d; metadata := doc_metadata d; score := ScoreNone |}.

Definition memory : Env :=
  {| Index := list Document;
     new_index := [];
     index_insert := fun idx d => (idx ++ [d], Ok tt);
     engine_query := fun idx k _ _ =>
       Ok (Response.mk
             "According to the uploaded documents, the requested policy applies."
             (map node_of (take k idx)));
     md5_hexdigest := digest;
     md5_hexdigest_length := digest_length;
     validation_error := validation_message |}.

Definition unscored : Env :=
  {| Index := list Document;
     new_index := [];
     index_insert := fun idx d => (idx ++ [d], Ok tt);
     engine_query := fun idx k _ _ =>
       Ok (Response.mk
             "According to the uploaded documents, the requested policy applies."
             (map unscored_node_of (take k idx)));
     md5_hexdigest := digest;
     md5_hexdigest_length := digest_length;
     validation_error := validation_message |}.

Definition insert_down : Env :=
  {| Index := list Document;
     new_index := [];
     index_insert := fun idx _ => (idx, Raise "Connection refused");
     engine_query := fun idx k _ _ =>
       Ok (Response.mk "Empty Response" (map node_of (take k idx)));
     md5_hexdigest := digest;
     md5_hexdigest_length := digest_length;
     validation_error := validation_message |}.

Definition no_model : Env :=
  {| Index := list Document;
     new_index := [];
     index_insert := fun idx d => (idx ++ [d], Ok tt);
     engine_query := fun _ _ _ _ => Raise "model 'gemma3' not found";
     md5_hexdigest := digest;
     md5_hexdigest_length := digest_length;
     validation_error := validation_message |}.

Definition offline : Env :=
  {| Index := list Document;
     new_index := [];
     index_insert := fun idx _ => (idx, Raise "Connection refused");
     engine_query := fun _ _ _ _ => Raise "Connection refused";
     md5_hexdigest := digest;
     md5_hexdigest_length := digest_length;
     validation_error := validation_message |}.

(** [s * n]. *)
Fixpoint str_repeat (s : string) (n : nat) : string :=
  match n with
  | O => ""
  | S n' => s +:+ str_repeat s n'
  end.

End Sample.

(** Sample data: two retrieved nodes, a text of 2800 characters, and the
    service after one upload for tenant "t1". *)

Definition sample_nodes : list Node :=
  [ {| text := Sample.str_repeat "lending terms " 100;
       metadata := {| md_filename := Some "loan_policy.txt";
                      md_document_type := Some "Policy";
                      md_tenant_id := Some "t1";
                      md_doc_id := Some "0a1b2c3d";
                      md_pages := Some 3%Z |};
       score := ScoreFloat 0.75%float |};
    {| text := "a short fragment";
       metadata := {| md_filename := None;
                      md_document_type := None;
                      md_tenant_id := None;
                      md_doc_id := None;
                      md_pages := Some 4%Z |};
       score := NoAttribute |} ].

(** Two retrieved nodes of which the second was given no score. *)
Definition unscored_nodes : list Node :=
  [ {| text := Sample.str_repeat "lending terms " 100;
       metadata := {| md_filename := Some "loan_policy.txt";
                      md_document_type := Some "Policy";
                      md_tenant_id := Some "t1";
                      md_doc_id := Some "0a1b2c3d";
                      md_pages := Some 3%Z |};
       score := ScoreFloat 0.75%float |};
    {| text := "a short fragment";
       metadata := {| md_filename := Some "loan_policy.txt";
                      md_document_type := Some "Policy";
                      md_tenant_id := Some "t1";
                      md_doc_id := Some "0a1b2c3d";
                      md_pages := Some 3%Z |};
       score := ScoreNone |} ].

Definition lending_text : string := Sample.str_repeat "lending terms " 200.

Definition memory_t1 : ChatService Sample.memory :=
  fst (upload_document init "t1" "loan_policy.txt" lending_text).

Definition no_model_t1 : ChatService Sample.no_model :=
  fst (upload_document init "t1" "loan_policy.txt" lending_text).

Definition unscored_t1 : ChatService Sample.unscored :=
  fst (upload_document init "t1" "loan_policy.txt" lending_text).

(** The response that [Sample.memory] gives for [memory_t1]. *)
Definition sample_response : Response.t :=
  Response.mk
    "According to the uploaded documents, the requested policy applies."
    [ {| text := lending_text;
         metadata :=
           {| md_filename := Some "loan_policy.txt";
              md_document_type := Some "Policy";
              md_tenant_id := Some "t1";
              md_doc_id := Some "t1_loan_";
              md_pages := Some 1%Z |};
         score := ScoreFloat 0.5%float |} ].

(** The citation extracted from it. *)
Definition sample_citations : list Citation.t :=
  [ Citation.mk "loan_policy.txt" 1%Z "Policy" 0.5%float ].

(** Forty letters after twenty no-break spaces (code point 160): sixty
    characters, forty once stripped. *)
Definition padded_text : string :=
  Sample.str_repeat (String (ascii_of_nat 160) EmptyString) 20
  +:+ Sample.str_repeat "a" 40.

(** Sample exception facts for the route handlers: [str(e)] of an
    [HTTPException] in the format "{status_code}: {detail}", and the test
    that recognises a [UnicodeDecodeError] by the start of its message. *)
Definition sample_str_http (status_code : Z) (detail : string) : string :=
  pretty status_code +:+ ": " +:+ detail.

Definition sample_is_unicode_decode_error (msg : string) : bool :=
  String.prefix "'utf-8' codec can't decode" msg.

(** * Part II: properties *)

(** ** Strings: lemmas *)

Section StrFacts.

Lemma lower_app (a b : string) : lower (a +:+ b) = lower a +:+ lower b.
Proof. induction a as [|x a IH]; simpl; [reflexivity | now rewrite IH]. Qed.

(** [String.prefix] is the boolean form of "is a prefix of". *)
Lemma prefix_spec (p s : string) :
  String.prefix p s = true <-> exists post, s = p +:+ post.
Proof.
  revert s. induction p as [|a p IH]; intros s; simpl.
  - split; [intros _; now exists s | intros _; now destruct s].
  - destruct s as [|b s]; simpl.
    + split; [discriminate | intros [post H]; discriminate].
    + destruct (ascii_dec a b) as [->|Hne].
      * rewrite IH. split; intros [post H]; exists post.
        -- now rewrite H.
        -- now inversion H.
      * split; [discriminate|]. intros [post H]. inversion H. congruence.
Qed.

(** [str_in] decides [occurs]. *)
Lemma str_in_spec (sub s : string) : str_in sub s = true <-> occurs sub s.
Proof.
  unfold occurs. induction s as [|c s IH]; cbn [str_in].
  - rewrite orb_false_r, prefix_spec. split.
    + intros [post H]. now exists "", post.
    + intros [pre [post H]]. destruct pre; simpl in H.
      * now exists post.
      * discriminate.
  - rewrite orb_true_iff, prefix_spec, IH. split.
    + intros [[post H] | [pre [post H]]].
      * now exists "", post.
      * exists (String c pre), post. simpl. now rewrite H.
    + intros [pre [post H]]. destruct pre as [|x pre]; simpl in H.
      * left. now exists post.
      * right. inversion H. now exists pre, post.
Qed.

(** A split of [lower s] comes from a split of [s]. *)
Lemma lower_split (s a b : string) :
  lower s = a +:+ b -> exists a' b', s = a' +:+ b' /\ lower a' = a /\ lower b' = b.
Proof.
  revert s. induction a as [|x a IH]; intros s H; simpl in H.
  - exists "", s. now simpl.
  - destruct s as [|c s]; simpl in H; [discriminate|].
    inversion H as [[Hc Hs]]. destruct (IH s Hs) as (a' & b' & -> & Ha & Hb).
    exists (String c a'), b'. simpl. now rewrite Ha, Hb.
Qed.

(** The test [w in s.lower()] for a lower-case keyword [w] is exactly the
    case-insensitive occurrence of [w] in [s]. *)
Lemma str_in_lower_spec (w s : string) :
  lower w = w -> (str_in w (lower s) = true <-> occurs_ci w s).
Proof.
  intros Hw. rewrite str_in_spec. unfold occurs, occurs_ci. split.
  - intros (pre & post & H).
    destruct (lower_split _ _ _ H) as (pre' & r & -> & Hpre & Hr).
    destruct (lower_split _ _ _ Hr) as (mid & post' & -> & Hmid & Hpost).
    exists pre', mid, post'. split; [reflexivity | congruence].
  - intros (pre & mid & post & -> & Hmid).
    exists (lower pre), (lower post).
    now rewrite !lower_app, Hmid, Hw.
Qed.

Lemma any_in_lower_spec (words : list string) (s : string) :
  Forall (fun w => lower w = w) words ->
  (any_in words (lower s) = true <-> any_occurs_ci words s).
Proof.
  intros Hws. unfold any_in, any_occurs_ci. rewrite existsb_exists.
  pose proof (proj1 (List.Forall_forall _ _) Hws) as Hlow.
  split; intros (w & Hin & H); exists w; split; try assumption;
    apply (str_in_lower_spec w s (Hlow w Hin)); assumption.
Qed.

(** A literal occurrence is in particular a case-insensitive one. *)
Lemma occurs_occurs_ci (w s : string) : occurs w s -> occurs_ci w s.
Proof. intros (pre & post & ->). now exists pre, w, post. Qed.

End StrFacts.

(** ** Keyword tests *)

Lemma any_in_true (words : list string) (w s : string) :
  In w words -> occurs w s -> any_in words s = true.
Proof.
  intros Hin Hocc. unfold any_in. apply existsb_exists.
  exists w. split; [assumption | now apply str_in_spec].
Qed.

Lemma any_in_false (words : list string) (s : string) :
  (forall w, In w words -> ~ occurs w s) -> any_in words s = false.
Proof.
  intros Hnone. destruct (any_in words s) eqn:Hany; [|reflexivity].
  unfold any_in in Hany. apply existsb_exists in Hany.
  destruct Hany as (w & Hin & Hw). apply str_in_spec in Hw.
  now destruct (Hnone w Hin).
Qed.

(** ** The classifier *)

Lemma any_in_lower_false (words : list string) (s : string) :
  Forall (fun w => lower w = w) words ->
  (any_in words (lower s) = false <-> ~ any_occurs_ci words s).
Proof.
  intros Hws. rewrite <- (any_in_lower_spec words s Hws).
  destruct (any_in words (lower s)); split; intros H; congruence.
Qed.

(** Every keyword of the source is written in lower case. *)
Ltac lowercase_words := repeat constructor.

(** Turn the value of a keyword test into the occurrence it decides. *)
Ltac reflect_any H :=
  match type of H with
  | any_in ?ws (lower ?s) = true =>
      apply (any_in_lower_spec ws s ltac:(lowercase_words)) in H
  | any_in ?ws (lower ?s) = false =>
      apply (any_in_lower_false ws s ltac:(lowercase_words)) in H
  end.

Ltac set_any H :=
  match type of H with
  | any_occurs_ci ?ws ?s =>
      apply (any_in_lower_spec ws s ltac:(lowercase_words)) in H
  | ~ any_occurs_ci ?ws ?s =>
      apply (any_in_lower_false ws s ltac:(lowercase_words)) in H
  end.

Lemma detect_document_type_classify (filename content : string) :
  classify filename content (detect_document_type filename content).
Proof.
  unfold detect_document_type; cbv zeta.
  destruct (any_in ["policy"; "procedure"; "rule"] (lower filename)) eqn:H1;
    reflect_any H1; [now constructor 1|].
  destruct (any_in ["handbook"; "manual"; "guide"] (lower filename)) eqn:H2;
    reflect_any H2; [now constructor 2|].
  destruct (any_in ["finance"; "financial"; "budget"; "revenue"] (lower filename)) eqn:H3;
    reflect_any H3; [now constructor 3|].
  destruct (any_in ["loan"; "credit"; "lending"] (lower content)) eqn:H4;
    reflect_any H4; [now constructor 4|].
  destruct (any_in ["onboard"; "training"; "employee"] (lower content)) eqn:H5;
    reflect_any H5; [now constructor 5 | now constructor 6].
Qed.

Lemma classify_functional (filename content t : string) :
  classify filename content t -> detect_document_type filename content = t.
Proof.
  intros H. unfold detect_document_type; cbv zeta.
  inversion H; subst;
    repeat match goal with
           | Hc : any_occurs_ci _ _ |- _ => set_any Hc
           | Hc : ~ any_occurs_ci _ _ |- _ => set_any Hc
           end;
    repeat match goal with
           | Hc : any_in _ _ = _ |- _ => rewrite Hc; clear Hc
           end;
    reflexivity.
Qed.

(** C5: [detect_document_type] is a total function whose value is the one
    and only type the six first-match-wins, case-insensitive substring rules
    assign: file name policy/procedure/rule, then file name
    handbook/manual/guide, then file name finance/financial/budget/revenue,
    then content loan/credit/lending, then content onboard/training/employee,
    else Document. A file name in which "policy" occurs, literally or up to
    letter case, is classified Policy whatever the content. *)
Theorem detect_document_type_spec (filename content : string) :
  (forall t, classify filename content t <-> detect_document_type filename content = t)
  /\ (occurs "policy" filename -> detect_document_type filename content = "Policy")
  /\ (occurs_ci "policy" filename -> detect_document_type filename content = "Policy").
Proof.
  assert (Hci : occurs_ci "policy" filename ->
                detect_document_type filename content = "Policy").
  { intros Hp. apply classify_functional. constructor 1.
    exists "policy". split; [now left | assumption]. }
  split; [|split].
  - intros t. split.
    + apply classify_functional.
    + intros <-. apply detect_document_type_classify.
  - intros Hp. apply Hci, occurs_occurs_ci, Hp.
  - exact Hci.
Qed.

Lemma detect_document_type_spec_witness :
  occurs "policy" "Loan_policy.TXT"
  /\ occurs_ci "policy" "HR-POLICY-2024.txt"
  /\ detect_document_type "Loan_policy.TXT" "employee training" = "Policy"
  /\ detect_document_type "HR-POLICY-2024.txt" "the onboarding guide" = "Policy".
Proof.
  assert (H1 : occurs "policy" "Loan_policy.TXT") by (now exists "Loan_", ".TXT").
  assert (H2 : occurs_ci "policy" "HR-POLICY-2024.txt")
    by (now exists "HR-", "POLICY", "-2024.txt").
  refine (conj H1 (conj H2 (conj _ _))).
  - exact (proj1 (proj2 (detect_document_type_spec "Loan_policy.TXT" "employee training")) H1).
  - exact (proj2 (proj2 (detect_document_type_spec "HR-POLICY-2024.txt" "the onboarding guide")) H2).
Defined.

(** ** The knowledge-gap detector *)

(** What the rule order gives for a question about a loan officer's
    training: the first keyword group wins. *)
Lemma detect_knowledge_gap_loan_training (answer : string) :
  snd (detect_knowledge_gap "Loan officer training" answer)
  = ["Loan Policy Document"; "Credit Guidelines"; "Lending Procedures"].
Proof. reflexivity. Qed.

(** C9, as stated, fails: the question "Loan officer training" contains
    "training" once lower-cased, and its suggestions are those of the loan
    group. *)
Lemma detect_knowledge_gap_training_counterexample :
  occurs "training" (lower "Loan officer training")
  /\ snd (detect_knowledge_gap "Loan officer training" "")
     <> ["Employee Handbook"; "Training Manual"; "HR Policies"].
Proof.
  split.
  - now exists "loan officer ", "".
  - rewrite detect_knowledge_gap_loan_training. discriminate.
Qed.

(** C9, amended: when the lower-cased question contains "training" and none
    of "loan", "credit", "lending", the suggestions are exactly
    Employee Handbook, Training Manual, HR Policies, whatever the answer. *)
Theorem detect_knowledge_gap_training (question answer : string) :
  occurs "training" (lower question) ->
  (forall w, In w ["loan"; "credit"; "lending"] -> ~ occurs w (lower question)) ->
  snd (detect_knowledge_gap question answer)
  = ["Employee Handbook"; "Training Manual"; "HR Policies"].
Proof.
  intros Htraining Hnone. unfold detect_knowledge_gap; cbv zeta; cbn [snd].
  rewrite (any_in_false _ _ Hnone).
  rewrite (any_in_true ["onboard"; "training"; "employee"] "training" (lower question));
    [reflexivity | now right; left | assumption].
Qed.

Lemma detect_knowledge_gap_training_witness :
  snd (detect_knowledge_gap "When is the next Training session?" "It is not found.")
  = ["Employee Handbook"; "Training Manual"; "HR Policies"].
Proof.
  apply (detect_knowledge_gap_training "When is the next Training session?" "It is not found.").
  - now exists "when is the next ", " session?".
  - intros w Hw Hocc. apply str_in_spec in Hocc.
    cbn [In] in Hw. destruct Hw as [<-|[<-|[<-|[]]]]; vm_compute in Hocc; discriminate.
Defined.

(** ** Citations *)

Lemma estimate_pages_ge_1 (content : string) : (1 <= estimate_pages content)%Z.
Proof. unfold estimate_pages. lia. Qed.

Section CitationFacts.

Context {E : Env}.

(** The loop of [extract_citations] builds the citations node by node and
    gives up at the first node for which [Citation] raises. *)
Lemma extract_citations_citations_of (source_nodes : list Node) (tenant_id : string) :
  extract_citations (E := E) source_nodes tenant_id = citations_of E source_nodes.
Proof.
  unfold extract_citations.
  match goal with |- fold_left ?f _ _ = _ => set (step := f) end.
  assert (Hraise : forall nodes msg, fold_left step nodes (Raise msg) = Raise msg).
  { induction nodes as [|node nodes IH]; intros msg; [reflexivity|].
    cbn [fold_left]. exact (IH msg). }
  assert (Hok : forall nodes acc,
             fold_left step nodes (Ok acc)
             = match citations_of E nodes with
               | Ok l => Ok (acc ++ l)
               | Raise msg => Raise msg
               end).
  { induction nodes as [|node nodes IH]; intros acc; cbn [fold_left citations_of].
    - now rewrite app_nil_r.
    - unfold step at 2. unfold confidence_of, citation_of, new_Citation.
      cbn [bind]. destruct (score node); cbn [bind].
      + rewrite IH. destruct (citations_of E nodes); [|reflexivity].
        now rewrite <- app_assoc.
      + apply Hraise.
      + rewrite IH. destruct (citations_of E nodes); [|reflexivity].
        now rewrite <- app_assoc. }
  rewrite Hok. now destruct (citations_of E source_nodes).
Qed.

(** When the extraction returns, it returns one citation per node, in the
    order of the nodes, each built from its node. *)
Lemma citations_of_returns (nodes : list Node) (l : list Citation.t) :
  citations_of E nodes = Ok l ->
  Forall2 (fun node c =>
             exists conf, confidence_of node = Some conf /\ c = citation_of node conf)
          nodes l.
Proof.
  revert l. induction nodes as [|node nodes IH]; intros l; cbn [citations_of].
  - intros [= <-]. constructor.
  - destruct (confidence_of node) as [conf|] eqn:Hconf; [|discriminate].
    destruct (citations_of E nodes) as [l'|msg]; [|discriminate].
    intros [= <-]. constructor; [eauto | now apply IH].
Qed.

(** A node whose score is [None] makes the extraction raise. *)
Lemma citations_of_raises (nodes : list Node) (node : Node) :
  In node nodes -> score node = ScoreNone ->
  citations_of E nodes = Raise (validation_error E).
Proof.
  intros Hin Hnone. induction nodes as [|n nodes IH]; [destruct Hin|].
  cbn [citations_of]. destruct Hin as [->|Hin].
  - unfold confidence_of. now rewrite Hnone.
  - destruct (confidence_of n); [|reflexivity]. now rewrite (IH Hin).
Qed.

(** Without such a node it returns. *)
Lemma citations_of_scored (nodes : list Node) :
  Forall (fun node => score node <> ScoreNone) nodes ->
  exists l, citations_of E nodes = Ok l.
Proof.
  induction 1 as [|node nodes Hnode _ [l IH]]; cbn [citations_of]; [eauto|].
  unfold confidence_of. rewrite IH. destruct (score node); eauto. congruence.
Qed.

End CitationFacts.

(** C6, evaluated where the code departs from it. A fragment list in which
    a fragment has the score [None] does not get one citation per fragment:
    building its citation raises, [extract_citations] raises with it and
    returns no list, whatever the other fragments are. So it is for the two
    fragments of [unscored_nodes]. *)
Theorem extract_citations_unscored_raises :
  (forall (E : Env) (source_nodes : list Node) (tenant_id : string) (node : Node),
      In node source_nodes -> score node = ScoreNone ->
      extract_citations (E := E) source_nodes tenant_id
      = Raise (validation_error E))
  /\ length unscored_nodes = 2%nat
  /\ extract_citations (E := Sample.memory) unscored_nodes "t1"
     = Raise "1 validation error for Citation".
Proof.
  split; [|split; reflexivity].
  intros E source_nodes tenant_id node Hin Hnone.
  rewrite extract_citations_citations_of. now apply (citations_of_raises _ node).
Qed.

(** C7, evaluated where the code departs from it. For a fragment whose
    score is [None], [hasattr(node, 'score')] is true, the default 0.8 is
    not used and no citation is built: [extract_citations] raises, and
    [query] answers with the error response. The default applies only to an
    object without the attribute. *)
Theorem unscored_fragment_no_default :
  (forall (E : Env) (node : Node) (tenant_id : string) (l : list Citation.t),
      score node = ScoreNone ->
      extract_citations (E := E) [node] tenant_id <> Ok l)
  /\ (forall (E : Env) (node : Node) (tenant_id : string),
         score node = NoAttribute ->
         exists c, extract_citations (E := E) [node] tenant_id = Ok [c]
                   /\ Citation.confidence c = 0.8%float)
  /\ query unscored_t1 "t1" "What is our loan policy?"
     = Ok (QueryResponse.mk
             "I encountered an error while searching your documents: 1 validation error for Citation"
             [] 0.0%float true (Some ["Please try rephrasing your question"])).
Proof.
  split; [|split].
  - intros E node tenant_id l Hnone.
    rewrite extract_citations_citations_of.
    rewrite (citations_of_raises [node] node); [discriminate | now left | exact Hnone].
  - intros E node tenant_id Hno. rewrite extract_citations_citations_of.
    cbn [citations_of]. unfold confidence_of. rewrite Hno.
    eexists. split; reflexivity.
  - vm_compute. reflexivity.
Qed.

(** ** The query orchestrator *)

Section Query.

Context {E : Env}.

Implicit Types (self : ChatService E) (tenant_id question : string).

(** [query] never raises: the lookup is guarded and the rest of the body is
    inside [try ... except Exception]. *)
Lemma query_returns self tenant_id question :
  exists r, query self tenant_id question = Ok r.
Proof.
  unfold query. destruct (tenant_indices self !! tenant_id) as [idx|]; [|eauto].
  destruct (engine_query E idx 3 "compact" question) as [resp|e];
    cbn [bind try_except]; [|eauto].
  destruct (extract_citations (E := E) (Response.source_nodes resp) tenant_id) as [l|e];
    cbn [bind try_except]; [|eauto].
  destruct (detect_knowledge_gap question (Response.response resp)); eauto.
Qed.

(** C3: for a tenant with an index, when the query engine (retrieval and
    answer generation) raises an error of message [e], [query] returns, and
    does not raise: the answer is the fixed prefix followed by [e], with no
    citation, confidence 0.0, a knowledge gap and the suggestion to
    rephrase. *)
Theorem query_engine_error self tenant_id question (idx : Index E) (e : string) :
  tenant_indices self !! tenant_id = Some idx ->
  engine_query E idx 3 "compact" question = Raise e ->
  query self tenant_id question
  = Ok (QueryResponse.mk
          ("I encountered an error while searching your documents: " +:+ e)
          [] 0.0%float true (Some ["Please try rephrasing your question"])).
Proof.
  intros Hidx Herr. unfold query. rewrite Hidx, Herr. reflexivity.
Qed.

(** The normal path of [query], spelled out: the engine returns and the
    citations are extracted. *)
Lemma query_normal self tenant_id question (idx : Index E) (resp : Response.t)
      (citations : list Citation.t) :
  tenant_indices self !! tenant_id = Some idx ->
  engine_query E idx 3 "compact" question = Ok resp ->
  extract_citations (E := E) (Response.source_nodes resp) tenant_id = Ok citations ->
  query self tenant_id question
  = Ok (QueryResponse.mk
          (Response.response resp)
          citations
          (if truthy citations
              && (50 <? String.length (Response.response resp))%nat
           then 0.9%float else 0.3%float)
          (fst (detect_knowledge_gap question (Response.response resp)))
          (if fst (detect_knowledge_gap question (Response.response resp))
           then Some (snd (detect_knowledge_gap question (Response.response resp)))
           else None)).
Proof.
  intros Hidx Hresp Hcit. unfold query. rewrite Hidx, Hresp. cbn [bind try_except].
  rewrite Hcit. cbn [bind try_except].
  now destruct (detect_knowledge_gap question (Response.response resp)).
Qed.

(** When the citations cannot be extracted, [query] answers with the error
    response. *)
Lemma query_extraction_error self tenant_id question (idx : Index E)
      (resp : Response.t) (e : string) :
  tenant_indices self !! tenant_id = Some idx ->
  engine_query E idx 3 "compact" question = Ok resp ->
  extract_citations (E := E) (Response.source_nodes resp) tenant_id = Raise e ->
  query self tenant_id question
  = Ok (QueryResponse.mk
          ("I encountered an error while searching your documents: " +:+ e)
          [] 0.0%float true (Some ["Please try rephrasing your question"])).
Proof.
  intros Hidx Hresp Hcit. unfold query. rewrite Hidx, Hresp. cbn [bind try_except].
  rewrite Hcit. reflexivity.
Qed.

(** C4: on the normal path (the engine returns and the citations are
    extracted) the response carries the engine's answer and the extracted
    citations, and its confidence is 0.9 when the citation list is not empty
    and the answer is longer than 50 characters, 0.3 otherwise; an answer of
    exactly 50 characters gives 0.3 whatever the citations. *)
Theorem query_confidence self tenant_id question (idx : Index E) (resp : Response.t)
        (citations : list Citation.t) :
  tenant_indices self !! tenant_id = Some idx ->
  engine_query E idx 3 "compact" question = Ok resp ->
  extract_citations (E := E) (Response.source_nodes resp) tenant_id = Ok citations ->
  exists r,
    query self tenant_id question = Ok r
    /\ QueryResponse.answer r = Response.response resp
    /\ QueryResponse.citations r = citations
    /\ (QueryResponse.citations r <> []
        /\ (50 < String.length (QueryResponse.answer r))%nat ->
        QueryResponse.confidence r = 0.9%float)
    /\ (~ (QueryResponse.citations r <> []
           /\ (50 < String.length (QueryResponse.answer r))%nat) ->
        QueryResponse.confidence r = 0.3%float)
    /\ (String.length (QueryResponse.answer r) = 50%nat ->
        QueryResponse.confidence r = 0.3%float).
Proof.
  intros Hidx Hresp Hcit. eexists.
  split; [exact (query_normal _ _ _ _ _ _ Hidx Hresp Hcit)|].
  cbn [QueryResponse.answer QueryResponse.citations QueryResponse.confidence].
  split; [reflexivity|]. split; [reflexivity|].
  destruct citations as [|c cs]; cbn [truthy andb].
  - split; [intros [Hne _]; congruence|]. split; reflexivity.
  - destruct (Nat.ltb_spec 50 (String.length (Response.response resp))) as [Hlt|Hge].
    + split; [reflexivity|]. split.
      * intros Hn. exfalso. apply Hn. split; [discriminate | exact Hlt].
      * intros Heq. lia.
    + split; [intros [_ Hlt]; lia|]. split; reflexivity.
Qed.

End Query.

(** ** The query orchestrator on the sample services *)

Lemma query_engine_error_witness :
  query no_model_t1 "t1" "What is our loan policy?"
  = Ok (QueryResponse.mk
          "I encountered an error while searching your documents: model 'gemma3' not found"
          [] 0.0%float true (Some ["Please try rephrasing your question"])).
Proof.
  refine (query_engine_error no_model_t1 "t1" "What is our loan policy?"
            [ {| doc_text := lending_text;
                 doc_metadata :=
                   {| md_filename := Some "loan_policy.txt";
                      md_document_type := Some "Policy";
                      md_tenant_id := Some "t1";
                      md_doc_id := Some "t1_loan_";
                      md_pages := Some 1%Z |} |} ]
            "model 'gemma3' not found" _ _).
  - vm_compute. reflexivity.
  - reflexivity.
Defined.

Lemma query_confidence_witness :
  exists r,
    query memory_t1 "t1" "What is our loan policy?" = Ok r
    /\ QueryResponse.confidence r = 0.9%float.
Proof.
  destruct (query_confidence memory_t1 "t1" "What is our loan policy?"
              [ {| doc_text := lending_text;
                   doc_metadata :=
                     {| md_filename := Some "loan_policy.txt";
                        md_document_type := Some "Policy";
                        md_tenant_id := Some "t1";
                        md_doc_id := Some "t1_loan_";
                        md_pages := Some 1%Z |} |} ]
              sample_response sample_citations
              ltac:(vm_compute; reflexivity) ltac:(vm_compute; reflexivity)
              ltac:(vm_compute; reflexivity))
    as (r & Hr & Hanswer & Hcit & Hhigh & _).
  exists r. split; [exact Hr|]. apply Hhigh.
  rewrite Hcit, Hanswer. split; [discriminate | vm_compute; lia].
Defined.

(** ** Document identifiers *)

Section DocumentId.

Context {E : Env}.

(** The record that a successful [upload_document] returns. *)
Lemma upload_document_returns (self : ChatService E)
      (tenant_id filename content : string) (d : DocumentInfo.t) :
  snd (upload_document self tenant_id filename content) = Ok d ->
  d = DocumentInfo.mk
        (slice_to 8 (md5_hexdigest E (tenant_id +:+ "_" +:+ filename)))
        filename
        (detect_document_type filename content)
        (estimate_pages content)
        "ready".
Proof.
  unfold upload_document; cbv zeta.
  repeat match goal with
         | |- context [match ?x with _ => _ end] => destruct x eqn:?; cbn [fst snd]
         end;
    intros H; try discriminate; now inversion H.
Qed.

Lemma doc_id_length (tenant_id filename : string) :
  String.length (slice_to 8 (md5_hexdigest E (tenant_id +:+ "_" +:+ filename))) = 8%nat.
Proof.
  apply Sample.substring_length. rewrite md5_hexdigest_length. lia.
Qed.

End DocumentId.

(** C10: the pairs ("a_b", "c") and ("a", "b_c") are distinct, the strings
    "{tenant_id}_{filename}" built from them are equal, and so the records
    returned by the two uploads carry the same 8-character id, whatever the
    hash function, the contents and the states of the service. *)
Theorem doc_id_not_injective :
  ("a_b", "c") <> ("a", "b_c")
  /\ "a_b" +:+ "_" +:+ "c" = "a" +:+ "_" +:+ "b_c"
  /\ forall (E : Env) (self self' : ChatService E) (content content' : string)
            (d d' : DocumentInfo.t),
       snd (upload_document self "a_b" "c" content) = Ok d ->
       snd (upload_document self' "a" "b_c" content') = Ok d' ->
       DocumentInfo.id d = DocumentInfo.id d'
       /\ String.length (DocumentInfo.id d) = 8%nat.
Proof.
  split; [discriminate|]. split; [reflexivity|].
  intros E self self' content content' d d' Hd Hd'.
  apply upload_document_returns in Hd, Hd'. subst d d'.
  cbn [DocumentInfo.id]. split; [reflexivity | apply doc_id_length].
Qed.

Lemma doc_id_not_injective_witness :
  exists d d',
    snd (upload_document (@init Sample.memory) "a_b" "c" lending_text) = Ok d
    /\ snd (upload_document memory_t1 "a" "b_c" "other text") = Ok d'
    /\ DocumentInfo.id d = DocumentInfo.id d'
    /\ DocumentInfo.name d <> DocumentInfo.name d'.
Proof.
  eexists. eexists.
  split; [vm_compute; reflexivity|]. split; [vm_compute; reflexivity|].
  split.
  - refine (proj1 (proj2 (proj2 doc_id_not_injective) Sample.memory
                     init memory_t1 lending_text "other text" _ _ _ _)).
    + vm_compute. reflexivity.
    + vm_compute. reflexivity.
  - vm_compute. discriminate.
Defined.

(** ** Isolation of tenants *)

Section Isolation.

Context {E : Env}.

Implicit Types (self : ChatService E) (call : Call) (calls : list Call).

Ltac destruct_upload :=
  unfold upload_document; cbv zeta;
  repeat match goal with
         | |- context [match ?x with _ => _ end] =>
             destruct x eqn:?; cbn [fst snd tenant_indices tenant_documents]
         end.

(** An upload under one tenant leaves the entries of every other tenant as
    they are. *)
Lemma upload_document_frame self (t t' filename content : string) :
  t <> t' ->
  corpus (fst (upload_document self t filename content)) t' = corpus self t'.
Proof.
  intros Hne. unfold corpus. destruct_upload;
    cbn [fst snd tenant_indices tenant_documents];
    rewrite ?lookup_insert_ne by assumption; reflexivity.
Qed.

Lemma serve_frame self call (t' : string) :
  tenant_of call <> t' -> corpus (fst (serve self call)) t' = corpus self t'.
Proof.
  destruct call as [t f c | t q | t]; cbn [tenant_of serve]; intros Hne;
    try reflexivity.
  pose proof (upload_document_frame self t t' f c Hne) as H.
  destruct (upload_document self t f c). exact H.
Qed.

(** The outcome of an upload, and what it leaves for its tenant, depend on
    the service only through the entries of that tenant. *)
Lemma upload_document_local self self' (t filename content : string) :
  corpus self t = corpus self' t ->
  snd (upload_document self t filename content)
  = snd (upload_document self' t filename content)
  /\ corpus (fst (upload_document self t filename content)) t
     = corpus (fst (upload_document self' t filename content)) t.
Proof.
  unfold corpus. intros [= Hidx Hdocs].
  unfold upload_document; cbv zeta.
  destruct (tenant_indices self !! t) as [idx|] eqn:Hi; symmetry in Hidx;
    rewrite ?Hidx; cbn [tenant_indices tenant_documents];
    rewrite ?Hi, ?Hidx, ?lookup_insert_eq.
  - destruct (index_insert E idx _) as [idx' [[]|msg]];
      cbn [fst snd tenant_indices tenant_documents];
      rewrite ?lookup_insert_eq; [|now rewrite Hdocs].
    rewrite <- Hdocs. destruct (tenant_documents self !! t) as [docs|] eqn:Hd;
      cbn [fst snd tenant_indices tenant_documents];
      rewrite ?lookup_insert_eq, ?Hd, <- ?Hdocs; auto.
  - destruct (index_insert E (new_index E) _) as [idx' [[]|msg]];
      cbn [fst snd tenant_indices tenant_documents];
      rewrite ?lookup_insert_eq; cbn [fst snd tenant_indices tenant_documents];
      rewrite ?lookup_insert_eq; auto.
Qed.

Lemma query_local self self' (t question : string) :
  corpus self t = corpus self' t -> query self t question = query self' t question.
Proof. unfold corpus. intros [= Hidx _]. unfold query. now rewrite Hidx. Qed.

Lemma get_documents_local self self' (t : string) :
  corpus self t = corpus self' t -> get_documents self t = get_documents self' t.
Proof. unfold corpus. intros [= _ Hdocs]. unfold get_documents. now rewrite Hdocs. Qed.

Lemma serve_local self self' call :
  corpus self (tenant_of call) = corpus self' (tenant_of call) ->
  snd (serve self call) = snd (serve self' call)
  /\ corpus (fst (serve self call)) (tenant_of call)
     = corpus (fst (serve self' call)) (tenant_of call).
Proof.
  destruct call as [t f c | t q | t]; cbn [tenant_of serve]; intros Hc.
  - destruct (upload_document_local self self' t f c Hc) as [Hr Hs].
    destruct (upload_document self t f c), (upload_document self' t f c).
    cbn [fst snd] in *. now rewrite Hr.
  - cbn [fst snd]. now rewrite (query_local self self' t q Hc).
  - cbn [fst snd]. now rewrite (get_documents_local self self' t Hc).
Qed.

Lemma run_cons self call calls :
  run self (call :: calls) = run (fst (serve self call)) calls.
Proof. reflexivity. Qed.

(** In a run, the entries of a tenant are those that its own calls alone
    produce. *)
Lemma run_isolated calls self self' (t : string) :
  corpus self t = corpus self' t ->
  corpus (run self calls) t
  = corpus (run self' (filter (fun call => tenant_of call = t) calls)) t.
Proof.
  revert self self'. induction calls as [|call calls IH]; intros self self' Hc.
  - exact Hc.
  - rewrite run_cons. destruct (decide (tenant_of call = t)) as [Heq|Hne].
    + rewrite filter_cons_True by assumption. rewrite run_cons.
      apply IH. subst t. now apply serve_local.
    + rewrite filter_cons_False by assumption.
      apply IH. now rewrite serve_frame.
Qed.

(** The replies to a tenant's calls are those it would receive if no other
    tenant had called. *)
Lemma replies_to_isolated calls self self' (t : string) :
  corpus self t = corpus self' t ->
  replies_to t self calls
  = replies_to t self' (filter (fun call => tenant_of call = t) calls).
Proof.
  revert self self'. induction calls as [|call calls IH]; intros self self' Hc.
  - reflexivity.
  - cbn [replies_to]. destruct (decide (tenant_of call = t)) as [Heq|Hne].
    + rewrite filter_cons_True by assumption. cbn [replies_to].
      assert (Hl : snd (serve self call) = snd (serve self' call)
                   /\ corpus (fst (serve self call)) t
                      = corpus (fst (serve self' call)) t)
        by (subst t; now apply serve_local).
      destruct Hl as [Hr Hs].
      destruct (serve self call) as [s1 r1], (serve self' call) as [s2 r2].
      cbn [fst snd] in Hr, Hs. subst r2.
      rewrite decide_True by assumption. f_equal. now apply IH.
    + rewrite filter_cons_False by assumption.
      pose proof (serve_frame self call t Hne) as Hf.
      destruct (serve self call) as [s1 r1]. cbn [fst] in Hf.
      apply IH. now rewrite Hf.
Qed.

(** A catalog gains only the record of an upload made under its tenant. *)
Lemma upload_document_catalog self (t t' filename content : string) (d : DocumentInfo.t) :
  In d (get_documents (fst (upload_document self t filename content)) t') ->
  In d (get_documents self t')
  \/ (t = t' /\ d = document_info (E := E) t filename content).
Proof.
  destruct (decide (t = t')) as [<-|Hne].
  - unfold get_documents, upload_document; cbv zeta.
    destruct (tenant_indices self !! t) as [idx|] eqn:Hi;
      cbn [tenant_indices tenant_documents]; rewrite ?Hi, ?lookup_insert_eq.
    + destruct (index_insert E idx _) as [idx' [[]|msg]];
        cbn [fst snd tenant_indices tenant_documents]; [|auto].
      destruct (tenant_documents self !! t) as [docs|] eqn:Hd;
        cbn [fst snd tenant_indices tenant_documents];
        rewrite ?lookup_insert_eq, ?Hd; cbn [default from_option id]; [|auto].
      rewrite in_app_iff. intros [H|[<-|[]]]; [now left | now right].
    + destruct (index_insert E (new_index E) _) as [idx' [[]|msg]];
        cbn [fst snd tenant_indices tenant_documents];
        rewrite ?lookup_insert_eq; cbn [fst snd tenant_indices tenant_documents];
        rewrite ?lookup_insert_eq; cbn [default from_option id app In].
      * intros [<-|[]]. now right.
      * intros [].
  - intros H. left. revert H.
    pose proof (upload_document_frame self t t' filename content Hne) as Hf.
    unfold corpus in Hf. injection Hf as _ Hdocs.
    unfold get_documents. now rewrite Hdocs.
Qed.

Lemma run_catalog calls self (t : string) (d : DocumentInfo.t) :
  In d (get_documents (run self calls) t) ->
  In d (get_documents self t)
  \/ exists filename content,
       In (Upload t filename content) calls
       /\ d = document_info (E := E) t filename content.
Proof.
  revert self. induction calls as [|call calls IH]; intros self Hd.
  - now left.
  - rewrite run_cons in Hd. destruct (IH _ Hd) as [Hin | (f & c & Hin & ->)].
    + destruct call as [t1 f c | t1 q | t1]; cbn [serve fst] in Hin;
        try (now left).
      assert (Hin' : In d (get_documents (fst (upload_document self t1 f c)) t))
        by (destruct (upload_document self t1 f c); exact Hin).
      destruct (upload_document_catalog _ _ _ _ _ _ Hin') as [H | [-> ->]].
      * now left.
      * right. exists f, c. split; [now left | reflexivity].
    + right. exists f, c. split; [now right | reflexivity].
Qed.

(** C2: tenants are isolated from one another. A call made under another
    tenant leaves the index and the catalog of tenant [t2] as they are; the
    reply to a call, and what the call leaves for its own tenant, depend on
    the service only through that tenant's index and catalog; so after any
    sequence of calls the index, the catalog and the document listing of
    [t2], and every reply that [t2] received, are those of the run in which
    only the calls of [t2] are made; and every record in the listing of [t2]
    was there at the start or is the record of an upload made under [t2]. *)
Theorem cross_tenant_isolation self calls (t2 : string) :
  (forall call, tenant_of call <> t2 ->
                corpus (fst (serve self call)) t2 = corpus self t2)
  /\ (forall self' call,
        corpus self (tenant_of call) = corpus self' (tenant_of call) ->
        snd (serve self call) = snd (serve self' call)
        /\ corpus (fst (serve self call)) (tenant_of call)
           = corpus (fst (serve self' call)) (tenant_of call))
  /\ corpus (run self calls) t2
     = corpus (run self (filter (fun call => tenant_of call = t2) calls)) t2
  /\ get_documents (run self calls) t2
     = get_documents (run self (filter (fun call => tenant_of call = t2) calls)) t2
  /\ replies_to t2 self calls
     = replies_to t2 self (filter (fun call => tenant_of call = t2) calls)
  /\ (forall d, In d (get_documents (run self calls) t2) ->
                In d (get_documents self t2)
                \/ exists filename content,
                     In (Upload t2 filename content) calls
                     /\ d = document_info (E := E) t2 filename content).
Proof.
  split; [intros call; apply serve_frame|].
  split; [intros self' call; apply serve_local|].
  split; [now apply run_isolated|].
  split; [apply get_documents_local; now apply run_isolated|].
  split; [now apply replies_to_isolated|].
  intros d. apply run_catalog.
Qed.

End Isolation.

Lemma cross_tenant_isolation_witness :
  corpus (fst (serve memory_t1 (Upload "t2" "hr_handbook.txt" "employee onboarding"))) "t1"
  = corpus memory_t1 "t1"
  /\ get_documents
       (run memory_t1
            [Upload "t2" "hr_handbook.txt" "employee onboarding";
             Query "t2" "Who runs the training?";
             Upload "t1" "budget.txt" "revenue and budget"]) "t1"
     = get_documents
         (run memory_t1
              (filter (fun call => tenant_of call = "t1")
                 [Upload "t2" "hr_handbook.txt" "employee onboarding";
                  Query "t2" "Who runs the training?";
                  Upload "t1" "budget.txt" "revenue and budget"])) "t1".
Proof.
  split.
  - apply (proj1 (cross_tenant_isolation memory_t1 [] "t1")
             (Upload "t2" "hr_handbook.txt" "employee onboarding")).
    cbn [tenant_of]. discriminate.
  - exact (proj1 (proj2 (proj2 (proj2
             (cross_tenant_isolation memory_t1
                [Upload "t2" "hr_handbook.txt" "employee onboarding";
                 Query "t2" "Who runs the training?";
                 Upload "t1" "budget.txt" "revenue and budget"] "t1"))))).
Defined.

(** The listing of "t1" in that run: its own two documents, in the order of
    upload, and nothing of "t2". *)
Example listing_after_interleaved_run :
  map DocumentInfo.name
    (get_documents
       (run memory_t1
            [Upload "t2" "hr_handbook.txt" "employee onboarding";
             Query "t2" "Who runs the training?";
             Upload "t1" "budget.txt" "revenue and budget"]) "t1")
  = ["loan_policy.txt"; "budget.txt"].
Proof. vm_compute. reflexivity. Qed.

(** ** When a tenant has a corpus *)

Section CorpusLifecycle.

Context {E : Env}.

Implicit Types (self : ChatService E) (call : Call) (calls : list Call).

(** Whatever the outcome of the insertion, an upload leaves an index entry
    for its tenant. *)
Lemma upload_document_creates_index self (t filename content : string) :
  is_Some (tenant_indices (fst (upload_document self t filename content)) !! t).
Proof.
  unfold upload_document; cbv zeta.
  destruct (tenant_indices self !! t) as [idx|] eqn:Hi;
    cbn [tenant_indices tenant_documents]; rewrite ?Hi, ?lookup_insert_eq.
  - destruct (index_insert E idx _) as [idx' [[]|msg]];
      cbn [fst snd tenant_indices tenant_documents].
    + destruct (tenant_documents self !! t);
        cbn [fst tenant_indices]; rewrite lookup_insert_eq; eauto.
    + rewrite lookup_insert_eq; eauto.
  - destruct (index_insert E (new_index E) _) as [idx' [[]|msg]];
      cbn [fst snd tenant_indices tenant_documents];
      rewrite ?lookup_insert_eq; cbn [fst tenant_indices];
      rewrite ?lookup_insert_eq; eauto.
Qed.

(** The first upload of a tenant whose insertion raises: the exception
    propagates, and the entries created before the insertion stay. *)
Lemma upload_document_insert_raises self (t filename content msg : string)
      (idx' : Index E) :
  tenant_indices self !! t = None ->
  index_insert E (new_index E)
    {| doc_text := content;
       doc_metadata :=
         {| md_filename := Some filename;
            md_document_type := Some (detect_document_type filename content);
            md_tenant_id := Some t;
            md_doc_id := Some (slice_to 8 (md5_hexdigest E (t +:+ "_" +:+ filename)));
            md_pages := Some (estimate_pages content) |} |}
  = (idx', Raise msg) ->
  snd (upload_document self t filename content) = Raise msg
  /\ tenant_indices (fst (upload_document self t filename content)) !! t = Some idx'
  /\ get_documents (fst (upload_document self t filename content)) t = [].
Proof.
  intros Hnone Hraise. unfold get_documents, upload_document; cbv zeta.
  rewrite Hnone; cbn [tenant_indices tenant_documents].
  rewrite lookup_insert_eq, Hraise; cbn [fst snd tenant_indices tenant_documents].
  now rewrite !lookup_insert_eq.
Qed.

Lemma serve_index self call (t : string) :
  is_Some (tenant_indices (fst (serve self call)) !! t)
  <-> is_Some (tenant_indices self !! t)
      \/ exists filename content, call = Upload t filename content.
Proof.
  destruct call as [t1 f c | t1 q | t1]; cbn [serve fst].
  - assert (Hfst : fst (let '(self', r) := upload_document self t1 f c in
                        (self', Uploaded r))
                   = fst (upload_document self t1 f c))
      by now destruct (upload_document self t1 f c).
    rewrite Hfst. clear Hfst. destruct (decide (t1 = t)) as [->|Hne].
    + split; [right; eauto | intros _; apply upload_document_creates_index].
    + pose proof (upload_document_frame self t1 t f c Hne) as Hf.
      unfold corpus in Hf. injection Hf as Hidx _. rewrite Hidx.
      split; [now left | intros [H | (f' & c' & [= -> _ _])]; [exact H | congruence]].
  - split; [now left | intros [H | (f' & c' & [=])]; exact H].
  - split; [now left | intros [H | (f' & c' & [=])]; exact H].
Qed.

(** What the code maintains: after a run, a tenant has an index exactly
    when it had one at the start or an upload was attempted under it. *)
Lemma run_index calls self (t : string) :
  is_Some (tenant_indices (run self calls) !! t)
  <-> is_Some (tenant_indices self !! t)
      \/ exists filename content, In (Upload t filename content) calls.
Proof.
  revert self. induction calls as [|call calls IH]; intros self.
  - cbn. split; [now left | intros [H | (f & c & [])]; exact H].
  - rewrite run_cons, IH, serve_index. cbn [In]. split.
    + intros [[H | (f & c & ->)] | (f & c & Hin)]; eauto 6.
    + intros [H | (f & c & [-> | Hin])]; eauto 6.
Qed.

(** A tenant under which no upload was ever attempted is answered with the
    "no documents" response. *)
Lemma query_before_any_upload calls (t question : string) :
  (forall filename content, ~ In (Upload t filename content) calls) ->
  query (run (@init E) calls) t question = Ok no_documents_response.
Proof.
  intros Hnone. unfold query.
  destruct (tenant_indices (run init calls) !! t) as [idx|] eqn:Hidx; [|reflexivity].
  assert (Hsome : is_Some (tenant_indices (run (@init E) calls) !! t)) by eauto.
  apply run_index in Hsome. destruct Hsome as [[x Hx] | (f & c & Hin)].
  - cbn in Hx. rewrite lookup_empty in Hx. discriminate.
  - now destruct (Hnone f c).
Qed.

End CorpusLifecycle.

(** C8, evaluated where the code departs from it. With an unreachable
    model server, the first upload of tenant "t1" raises and no ingestion
    has succeeded; yet "t1" now has an index (an empty one) and an empty
    catalog, and a query for "t1" no longer takes the "no documents"
    branch. *)
Theorem failed_upload_leaves_corpus :
  tenant_indices (@init Sample.offline) !! "t1" = None
  /\ snd (upload_document (@init Sample.offline) "t1" "loan_policy.txt" lending_text)
     = Raise "Connection refused"
  /\ tenant_indices
       (fst (upload_document (@init Sample.offline) "t1" "loan_policy.txt" lending_text))
       !! "t1"
     = Some []
  /\ get_documents
       (fst (upload_document (@init Sample.offline) "t1" "loan_policy.txt" lending_text))
       "t1"
     = []
  /\ query
       (fst (upload_document (@init Sample.offline) "t1" "loan_policy.txt" lending_text))
       "t1" "What is our loan policy?"
     = Ok (QueryResponse.mk
             "I encountered an error while searching your documents: Connection refused"
             [] 0.0%float true (Some ["Please try rephrasing your question"]))
  /\ query
       (fst (upload_document (@init Sample.offline) "t1" "loan_policy.txt" lending_text))
       "t1" "What is our loan policy?"
     <> Ok no_documents_response.
Proof.
  assert (Hq : query
       (fst (upload_document (@init Sample.offline) "t1" "loan_policy.txt" lending_text))
       "t1" "What is our loan policy?"
     = Ok (QueryResponse.mk
             "I encountered an error while searching your documents: Connection refused"
             [] 0.0%float true (Some ["Please try rephrasing your question"])))
    by (vm_compute; reflexivity).
  repeat split; try (vm_compute; reflexivity).
  rewrite Hq. unfold no_documents_response. discriminate.
Qed.

(** * Part III: further properties of the code *)

(** ** Page estimates *)

(** X1: the page estimate is at least 1, never decreases when the content
    gets longer, is 1 for every content shorter than 4000 characters, and
    from 2000 characters on counts the complete blocks of 2000 characters. *)
Theorem estimate_pages_monotone (content content' : string) :
  (1 <= estimate_pages content)%Z
  /\ ((String.length content <= String.length content')%nat ->
      (estimate_pages content <= estimate_pages content')%Z)
  /\ ((String.length content < 4000)%nat -> estimate_pages content = 1%Z)
  /\ ((2000 <= String.length content)%nat ->
      (2000 * estimate_pages content <= Z.of_nat (String.length content)
       < 2000 * (estimate_pages content + 1))%Z).
Proof.
  unfold estimate_pages.
  set (n := Z.of_nat (String.length content)).
  set (m := Z.of_nat (String.length content')).
  assert (Hn : (0 <= n)%Z) by (subst n; lia).
  split; [lia|]. split; [|split].
  - intros Hle. assert (Hnm : (n <= m)%Z) by (subst n m; lia).
    pose proof (Z.div_le_mono n m 2000 ltac:(lia) Hnm). lia.
  - intros Hlt. assert (Hn4 : (n < 4000)%Z) by (subst n; lia).
    assert (n / 2000 < 2)%Z by (apply Z.div_lt_upper_bound; lia). lia.
  - intros Hge. assert (Hn2 : (2000 <= n)%Z) by (subst n; lia).
    assert (1 <= n / 2000)%Z by (apply Z.div_le_lower_bound; lia).
    rewrite Z.max_r by lia.
    pose proof (Z.mul_div_le n 2000 ltac:(lia)).
    pose proof (Z.mul_succ_div_gt n 2000 ltac:(lia)). lia.
Qed.

Lemma estimate_pages_monotone_witness :
  (estimate_pages lending_text <= estimate_pages (Sample.str_repeat "lending terms " 350))%Z
  /\ estimate_pages lending_text = 1%Z
  /\ (2000 * estimate_pages (Sample.str_repeat "lending terms " 350)
      <= Z.of_nat (String.length (Sample.str_repeat "lending terms " 350)))%Z.
Proof.
  assert (H1 : String.length lending_text = 2800%nat) by (vm_compute; reflexivity).
  assert (H2 : String.length (Sample.str_repeat "lending terms " 350) = 4900%nat)
    by (vm_compute; reflexivity).
  split; [|split].
  - apply (proj1 (proj2 (estimate_pages_monotone lending_text
                           (Sample.str_repeat "lending terms " 350)))).
    rewrite H1, H2. lia.
  - apply (proj1 (proj2 (proj2 (estimate_pages_monotone lending_text "")))).
    rewrite H1. lia.
  - apply (proj2 (proj2 (proj2 (estimate_pages_monotone
                                  (Sample.str_repeat "lending terms " 350) "")))).
    rewrite H2. lia.
Defined.

(** ** The classifier: letter case, precedence and range *)

Lemma lower_char_idem (c : ascii) : lower_char (lower_char c) = lower_char c.
Proof. destruct c as [[] [] [] [] [] [] [] []]; vm_compute; reflexivity. Qed.

Lemma lower_idem (s : string) : lower (lower s) = lower s.
Proof.
  induction s as [|x s IH]; simpl; [reflexivity|].
  now rewrite lower_char_idem, IH.
Qed.

(** X2: the document type does not depend on the letter case of the file
    name or of the content: two file names, and two contents, that are
    equal once lower-cased get the same type, and lower-casing the
    arguments changes nothing. *)
Theorem detect_document_type_case_insensitive (filename filename' content content' : string) :
  detect_document_type (lower filename) (lower content)
  = detect_document_type filename content
  /\ (lower filename = lower filename' -> lower content = lower content' ->
      detect_document_type filename content
      = detect_document_type filename' content').
Proof.
  split.
  - unfold detect_document_type. now rewrite !lower_idem.
  - intros Hf Hc. unfold detect_document_type. now rewrite Hf, Hc.
Qed.

Lemma detect_document_type_case_insensitive_witness :
  detect_document_type "BUDGET_2024.TXT" "Revenue Plan"
  = detect_document_type "budget_2024.txt" "revenue plan".
Proof.
  apply (proj2 (detect_document_type_case_insensitive
                  "BUDGET_2024.TXT" "budget_2024.txt" "Revenue Plan" "revenue plan"));
    reflexivity.
Defined.

(** X3: when the file name matches one of the file-name keywords (up to
    letter case), the content plays no part in the document type. *)
Theorem detect_document_type_filename_first (filename content content' : string) :
  any_occurs_ci ["policy"; "procedure"; "rule"; "handbook"; "manual"; "guide";
                 "finance"; "financial"; "budget"; "revenue"] filename ->
  detect_document_type filename content = detect_document_type filename content'.
Proof.
  intros (w & Hin & Hw). unfold detect_document_type; cbv zeta.
  assert (Hgroup :
            any_occurs_ci ["policy"; "procedure"; "rule"] filename
            \/ any_occurs_ci ["handbook"; "manual"; "guide"] filename
            \/ any_occurs_ci ["finance"; "financial"; "budget"; "revenue"] filename).
  { cbn [In] in Hin.
    destruct Hin as [<-|[<-|[<-|[<-|[<-|[<-|[<-|[<-|[<-|[<-|[]]]]]]]]]]];
      [left | left | left | right; left | right; left | right; left
       | right; right | right; right | right; right | right; right];
      eexists; (split; [|exact Hw]); cbn [In]; tauto. }
  destruct (any_in ["policy"; "procedure"; "rule"] (lower filename)) eqn:H1;
    [reflexivity|]. reflect_any H1.
  destruct (any_in ["handbook"; "manual"; "guide"] (lower filename)) eqn:H2;
    [reflexivity|]. reflect_any H2.
  destruct (any_in ["finance"; "financial"; "budget"; "revenue"] (lower filename)) eqn:H3;
    [reflexivity|]. reflect_any H3.
  tauto.
Qed.

Lemma detect_document_type_filename_first_witness :
  detect_document_type "Employee_Handbook.txt" "loan and credit terms"
  = detect_document_type "Employee_Handbook.txt" "".
Proof.
  apply (detect_document_type_filename_first
           "Employee_Handbook.txt" "loan and credit terms" "").
  exists "handbook". split; [cbn [In]; tauto|].
  now exists "Employee_", "Handbook", ".txt".
Defined.

(** The type is always one of the four categories. *)
Lemma detect_document_type_range (filename content : string) :
  In (detect_document_type filename content)
     ["Policy"; "Handbook"; "Finance"; "Document"].
Proof.
  unfold detect_document_type; cbv zeta.
  repeat match goal with
         | |- context [if ?b then _ else _] => destruct b
         end; cbn [In]; tauto.
Qed.

(** ** The knowledge-gap detector: the flag and the suggestions *)

(** X4: the gap flag is raised exactly when one of the four indicator
    phrases occurs in the answer up to letter case; the question plays no
    part in it. *)
Theorem detect_knowledge_gap_flag (question answer : string) :
  fst (detect_knowledge_gap question answer) = true
  <-> any_occurs_ci
        ["don't have information"; "not found"; "no information"; "unable to find"]
        answer.
Proof.
  unfold detect_knowledge_gap; cbv zeta; cbn [fst].
  apply any_in_lower_spec. repeat constructor.
Qed.

Lemma suggest_detect_knowledge_gap (question answer : string) :
  suggest question (snd (detect_knowledge_gap question answer)).
Proof.
  unfold detect_knowledge_gap; cbv zeta; cbn [snd].
  destruct (any_in ["loan"; "credit"; "lending"] (lower question)) eqn:H1;
    reflect_any H1; [now constructor 1|].
  destruct (any_in ["onboard"; "training"; "employee"] (lower question)) eqn:H2;
    reflect_any H2; [now constructor 2|].
  destruct (any_in ["finance"; "revenue"; "cac"; "budget"] (lower question)) eqn:H3;
    reflect_any H3; [now constructor 3|].
  destruct (any_in ["customer"; "client"; "acquisition"] (lower question)) eqn:H4;
    reflect_any H4; [now constructor 4 | now constructor 5].
Qed.

Lemma suggest_functional (question answer : string) (l : list string) :
  suggest question l -> snd (detect_knowledge_gap question answer) = l.
Proof.
  intros H. unfold detect_knowledge_gap; cbv zeta; cbn [snd].
  inversion H; subst;
    repeat match goal with
           | Hc : any_occurs_ci _ _ |- _ => set_any Hc
           | Hc : ~ any_occurs_ci _ _ |- _ => set_any Hc
           end;
    repeat match goal with
           | Hc : any_in _ _ = _ |- _ => rewrite Hc; clear Hc
           end;
    reflexivity.
Qed.

Lemma suggestions_length (question answer : string) :
  length (snd (detect_knowledge_gap question answer)) = 3%nat.
Proof. destruct (suggest_detect_knowledge_gap question answer); reflexivity. Qed.

(** X5: the suggestions are those of the first of the five keyword groups
    that occurs in the question up to letter case (loan, staff, finance,
    customer, else the default), they do not depend on the answer, and
    there are always exactly three of them. *)
Theorem detect_knowledge_gap_suggestions (question answer : string) :
  (forall l, suggest question l <-> snd (detect_knowledge_gap question answer) = l)
  /\ (forall answer', snd (detect_knowledge_gap question answer')
                      = snd (detect_knowledge_gap question answer))
  /\ length (snd (detect_knowledge_gap question answer)) = 3%nat.
Proof.
  split; [|split].
  - intros l. split.
    + apply suggest_functional.
    + intros <-. apply suggest_detect_knowledge_gap.
  - intros answer'. reflexivity.
  - apply suggestions_length.
Qed.

(** ** Citations: composition *)

Lemma citations_of_app (E : Env) (nodes nodes' : list Node) :
  citations_of E (nodes ++ nodes')
  = (l <~ citations_of E nodes ;; l' <~ citations_of E nodes' ;; Ok (l ++ l')).
Proof.
  induction nodes as [|node nodes IH]; cbn [app citations_of bind].
  - now destruct (citations_of E nodes').
  - destruct (confidence_of node); [|reflexivity].
    rewrite IH. destruct (citations_of E nodes); cbn [bind]; [|reflexivity].
    now destruct (citations_of E nodes').
Qed.

(** X6: citations are built node by node: extracting from two lists of
    nodes put end to end is extracting from the first and then from the
    second (the first exception, if any, is the outcome; otherwise the
    citations of the first followed by those of the second), the empty list
    gives no citation, and the tenant id passed to [extract_citations] has
    no effect on the result. *)
Theorem extract_citations_app (E : Env) (nodes nodes' : list Node) (t t' t'' : string) :
  extract_citations (E := E) (nodes ++ nodes') t
  = (l <~ extract_citations (E := E) nodes t' ;;
     l' <~ extract_citations (E := E) nodes' t'' ;;
     Ok (l ++ l'))
  /\ extract_citations (E := E) [] t = Ok []
  /\ extract_citations (E := E) nodes t = extract_citations (E := E) nodes t'.
Proof.
  rewrite !extract_citations_citations_of.
  split; [apply citations_of_app|]. split; reflexivity.
Qed.

(** X23: when [extract_citations] returns, it returns exactly one citation
    per fragment, in the order of the fragments; the page of each is
    min(pageCount, max(1, floor(len(text) / 500))), where pageCount is the
    fragment's "pages" metadata (1 when the key is absent), so it is at most
    pageCount and, when pageCount is at least 1, at least 1; the cited
    document is the fragment's file name, "Unknown" when it has none, and
    the document type is the fragment's, "Document" when it has none. *)
Theorem extract_citations_pages (E : Env) (source_nodes : list Node)
        (tenant_id : string) (l : list Citation.t) :
  extract_citations (E := E) source_nodes tenant_id = Ok l ->
  length l = length source_nodes
  /\ forall (i : nat) (node : Node),
       source_nodes !! i = Some node ->
       exists c,
         l !! i = Some c
         /\ Citation.page c
            = Z.min (default 1%Z (md_pages (metadata node)))
                    (Z.max 1 (Z.of_nat (String.length (text node)) / 500))
         /\ (Citation.page c <= default 1 (md_pages (metadata node)))%Z
         /\ ((1 <= default 1 (md_pages (metadata node)))%Z -> (1 <= Citation.page c)%Z)
         /\ Citation.document c = default "Unknown" (md_filename (metadata node))
         /\ Citation.document_type c
            = default "Document" (md_document_type (metadata node)).
Proof.
  rewrite extract_citations_citations_of. intros Hl.
  apply citations_of_returns in Hl. split.
  - symmetry. exact (Forall2_length _ _ _ Hl).
  - intros i node Hnode.
    destruct (Forall2_lookup_l _ _ _ _ _ Hl Hnode) as (c & Hc & conf & _ & ->).
    exists (citation_of node conf). split; [exact Hc|].
    cbn [citation_of Citation.page Citation.document Citation.document_type].
    repeat split; lia.
Qed.

Lemma extract_citations_pages_witness :
  length [Citation.mk "loan_policy.txt" 2%Z "Policy" 0.75%float;
          Citation.mk "Unknown" 1%Z "Document" 0.8%float]
  = length sample_nodes
  /\ forall (i : nat) (node : Node),
       sample_nodes !! i = Some node ->
       exists c,
         [Citation.mk "loan_policy.txt" 2%Z "Policy" 0.75%float;
          Citation.mk "Unknown" 1%Z "Document" 0.8%float] !! i = Some c
         /\ Citation.page c
            = Z.min (default 1%Z (md_pages (metadata node)))
                    (Z.max 1 (Z.of_nat (String.length (text node)) / 500))
         /\ (Citation.page c <= default 1 (md_pages (metadata node)))%Z
         /\ ((1 <= default 1 (md_pages (metadata node)))%Z -> (1 <= Citation.page c)%Z)
         /\ Citation.document c = default "Unknown" (md_filename (metadata node))
         /\ Citation.document_type c
            = default "Document" (md_document_type (metadata node)).
Proof.
  apply (extract_citations_pages Sample.memory sample_nodes "t1").
  vm_compute. reflexivity.
Defined.

(** X24: [extract_citations] returns exactly when no fragment has the
    score [None]; it then gives an object without the attribute [score] the
    confidence 0.8 and a fragment whose score is a float that score. *)
Theorem extract_citations_confidence (E : Env) (source_nodes : list Node)
        (tenant_id : string) :
  ((exists l, extract_citations (E := E) source_nodes tenant_id = Ok l)
   <-> Forall (fun node => score node <> ScoreNone) source_nodes)
  /\ forall (l : list Citation.t) (i : nat) (node : Node),
       extract_citations (E := E) source_nodes tenant_id = Ok l ->
       source_nodes !! i = Some node ->
       exists c,
         l !! i = Some c
         /\ (score node = NoAttribute -> Citation.confidence c = 0.8%float)
         /\ (forall s, score node = ScoreFloat s -> Citation.confidence c = s).
Proof.
  rewrite extract_citations_citations_of. split.
  - split; [|apply citations_of_scored].
    intros [l Hl]. apply List.Forall_forall. intros node Hin Hnone.
    rewrite (citations_of_raises source_nodes node Hin Hnone) in Hl. discriminate.
  - intros l i node Hl Hnode. apply citations_of_returns in Hl.
    destruct (Forall2_lookup_l _ _ _ _ _ Hl Hnode) as (c & Hc & conf & Hconf & ->).
    exists (citation_of node conf). split; [exact Hc|].
    unfold confidence_of in Hconf. cbn [citation_of Citation.confidence].
    split; [intros Hs | intros s Hs]; rewrite Hs in Hconf; congruence.
Qed.

Lemma extract_citations_confidence_witness :
  (exists c, [Citation.mk "loan_policy.txt" 2%Z "Policy" 0.75%float;
              Citation.mk "Unknown" 1%Z "Document" 0.8%float] !! 1%nat = Some c
             /\ Citation.confidence c = 0.8%float)
  /\ (exists c, [Citation.mk "loan_policy.txt" 2%Z "Policy" 0.75%float;
                 Citation.mk "Unknown" 1%Z "Document" 0.8%float] !! 0%nat = Some c
                /\ Citation.confidence c = 0.75%float).
Proof.
  split.
  - destruct (proj2 (extract_citations_confidence Sample.memory sample_nodes "t1")
                _ 1%nat _ ltac:(vm_compute; reflexivity) eq_refl)
      as (c & Hc & Hno & _).
    exists c. split; [exact Hc | apply Hno; reflexivity].
  - destruct (proj2 (extract_citations_confidence Sample.memory sample_nodes "t1")
                _ 0%nat _ ltac:(vm_compute; reflexivity) eq_refl)
      as (c & Hc & _ & Hfloat).
    exists c. split; [exact Hc | apply Hfloat; reflexivity].
Defined.

(** ** The query orchestrator: what every response satisfies *)

Lemma float_0_9_ne_0_3 : 0.9%float <> 0.3%float.
Proof.
  intros H. apply (f_equal (fun x => PrimFloat.ltb x 0.5%float)) in H.
  vm_compute in H. discriminate H.
Qed.

Lemma float_0_9_ne_0 : 0.9%float <> 0.0%float.
Proof.
  intros H. apply (f_equal (fun x => PrimFloat.ltb x 0.5%float)) in H.
  vm_compute in H. discriminate H.
Qed.

Lemma float_0_3_ne_0 : 0.3%float <> 0.0%float.
Proof.
  intros H. apply (f_equal (fun x => PrimFloat.ltb x 0.1%float)) in H.
  vm_compute in H. discriminate H.
Qed.

Section QueryResponses.

Context {E : Env}.

Implicit Types (self : ChatService E) (tenant_id question : string).

(** The three ways in which [query] ends: the error response is given when
    the query engine raises and when the extraction of the citations
    raises. *)
Lemma query_cases self tenant_id question :
  (tenant_indices self !! tenant_id = None
   /\ query self tenant_id question = Ok no_documents_response)
  \/ (exists idx e,
        tenant_indices self !! tenant_id = Some idx
        /\ (engine_query E idx 3 "compact" question = Raise e
            \/ exists resp,
                engine_query E idx 3 "compact" question = Ok resp
                /\ extract_citations (E := E) (Response.source_nodes resp) tenant_id
                   = Raise e)
        /\ query self tenant_id question = Ok (error_response e))
  \/ (exists idx resp citations,
        tenant_indices self !! tenant_id = Some idx
        /\ engine_query E idx 3 "compact" question = Ok resp
        /\ extract_citations (E := E) (Response.source_nodes resp) tenant_id
           = Ok citations
        /\ query self tenant_id question
           = Ok (normal_response question resp citations)).
Proof.
  destruct (tenant_indices self !! tenant_id) as [idx|] eqn:Hidx.
  - right. destruct (engine_query E idx 3 "compact" question) as [resp|e] eqn:Hq.
    + destruct (extract_citations (E := E) (Response.source_nodes resp) tenant_id)
        as [citations|e] eqn:Hcit.
      * right. exists idx, resp, citations.
        split; [reflexivity|]. split; [exact Hq|]. split; [exact Hcit|].
        exact (query_normal _ _ _ _ _ _ Hidx Hq Hcit).
      * left. exists idx, e. split; [reflexivity|]. split; [right; eauto|].
        exact (query_extraction_error _ _ _ _ _ _ Hidx Hq Hcit).
    + left. exists idx, e. split; [reflexivity|]. split; [now left|].
      unfold query. rewrite Hidx, Hq. reflexivity.
  - left. split; [reflexivity|]. unfold query. now rewrite Hidx.
Qed.

(** X7: [query] never raises: whatever the service holds and whatever the
    query engine does, it returns a response. *)
Theorem query_never_raises self tenant_id question :
  exists r, query self tenant_id question = Ok r.
Proof.
  destruct (query_cases self tenant_id question)
    as [[_ H] | [(idx & e & _ & _ & H) | (idx & resp & citations & _ & _ & _ & H)]];
    rewrite H; eauto.
Qed.

Lemma query_no_documents_inv self tenant_id question :
  query self tenant_id question = Ok no_documents_response ->
  tenant_indices self !! tenant_id = None.
Proof.
  destruct (query_cases self tenant_id question)
    as [[Hnone H] | [(idx & e & Hidx & _ & H)
                     | (idx & resp & citations & Hidx & _ & _ & H)]];
    rewrite H.
  - intros _. exact Hnone.
  - unfold error_response, no_documents_response. intros [=].
  - unfold normal_response, no_documents_response. intros [= _ _ Hconf _ _].
    exfalso. revert Hconf.
    destruct (truthy _ && _); [apply float_0_9_ne_0 | apply float_0_3_ne_0].
Qed.

(** X8: the "no documents" response is returned exactly for the tenants
    that have no entry in [tenant_indices]: a tenant with an index, even an
    empty one, never gets it. *)
Theorem query_no_documents_iff self tenant_id question :
  query self tenant_id question = Ok no_documents_response
  <-> tenant_indices self !! tenant_id = None.
Proof.
  split; [apply query_no_documents_inv|].
  intros Hnone. unfold query. now rewrite Hnone.
Qed.

(** X9: in every response of [query] the suggestions are present exactly
    when the knowledge-gap flag is set, and when present they are not
    empty. *)
Theorem query_suggestions_iff_gap self tenant_id question (r : QueryResponse.t) :
  query self tenant_id question = Ok r ->
  (QueryResponse.has_knowledge_gap r = true <-> is_Some (QueryResponse.suggestions r))
  /\ QueryResponse.suggestions r <> Some [].
Proof.
  destruct (query_cases self tenant_id question)
    as [[_ H] | [(idx & e & _ & _ & H) | (idx & resp & citations & _ & _ & _ & H)]];
    rewrite H; intros [= <-];
    unfold normal_response, error_response, no_documents_response;
    cbn [QueryResponse.has_knowledge_gap QueryResponse.suggestions
         QueryResponse.confidence QueryResponse.citations QueryResponse.answer].
  - split; [split; eauto | discriminate].
  - split; [split; eauto | discriminate].
  - destruct (fst (detect_knowledge_gap question (Response.response resp))) eqn:Hgap.
    + split; [split; eauto|].
      pose proof (suggestions_length question (Response.response resp)) as Hlen.
      intros Hs.
      assert (Hnil : snd (detect_knowledge_gap question (Response.response resp)) = [])
        by (injection Hs as Hs; exact Hs).
      rewrite Hnil in Hlen. discriminate Hlen.
    + split; [|discriminate]. split; [discriminate | intros [x Hx]; discriminate].
Qed.

(** X10: the confidence of a response is 0.0, 0.3 or 0.9; it is 0.9 only
    with at least one citation and an answer longer than 50 characters, and
    0.0 only with no citation and the knowledge-gap flag set. *)
Theorem query_confidence_values self tenant_id question (r : QueryResponse.t) :
  query self tenant_id question = Ok r ->
  (QueryResponse.confidence r = 0.0%float
   \/ QueryResponse.confidence r = 0.3%float
   \/ QueryResponse.confidence r = 0.9%float)
  /\ (QueryResponse.confidence r = 0.9%float ->
      QueryResponse.citations r <> []
      /\ (50 < String.length (QueryResponse.answer r))%nat)
  /\ (QueryResponse.confidence r = 0.0%float ->
      QueryResponse.citations r = []
      /\ QueryResponse.has_knowledge_gap r = true).
Proof.
  destruct (query_cases self tenant_id question)
    as [[_ H] | [(idx & e & _ & _ & H) | (idx & resp & citations & _ & _ & _ & H)]];
    rewrite H; intros [= <-];
    unfold normal_response, error_response, no_documents_response;
    cbn [QueryResponse.has_knowledge_gap QueryResponse.suggestions
         QueryResponse.confidence QueryResponse.citations QueryResponse.answer].
  - split; [now left|]. split; [|now split].
    intros Hc. symmetry in Hc. now apply float_0_9_ne_0 in Hc.
  - split; [now left|]. split; [|now split].
    intros Hc. symmetry in Hc. now apply float_0_9_ne_0 in Hc.
  - destruct citations as [|c cs]; cbn [truthy andb].
    + split; [right; now left|]. split.
      * intros Hc. symmetry in Hc. now apply float_0_9_ne_0_3 in Hc.
      * intros Hc. now apply float_0_3_ne_0 in Hc.
    + destruct (Nat.ltb_spec 50 (String.length (Response.response resp))) as [Hlt|Hge].
      * split; [right; now right|]. split.
        -- intros _. split; [discriminate | exact Hlt].
        -- intros Hc. now apply float_0_9_ne_0 in Hc.
      * split; [right; now left|]. split.
        -- intros Hc. symmetry in Hc. now apply float_0_9_ne_0_3 in Hc.
        -- intros Hc. now apply float_0_3_ne_0 in Hc.
Qed.

End QueryResponses.

Lemma query_memory_t1 :
  query memory_t1 "t1" "What is our loan policy?"
  = Ok (normal_response "What is our loan policy?" sample_response sample_citations).
Proof. vm_compute. reflexivity. Qed.

Lemma query_suggestions_iff_gap_witness :
  (QueryResponse.has_knowledge_gap
     (normal_response "What is our loan policy?" sample_response sample_citations) = true
   <-> is_Some (QueryResponse.suggestions
                  (normal_response "What is our loan policy?" sample_response sample_citations)))
  /\ QueryResponse.suggestions
       (normal_response "What is our loan policy?" sample_response sample_citations)
     <> Some [].
Proof.
  exact (query_suggestions_iff_gap memory_t1 "t1" "What is our loan policy?"
           _ query_memory_t1).
Defined.

Lemma query_confidence_values_witness :
  QueryResponse.citations
    (normal_response "What is our loan policy?" sample_response sample_citations) <> []
  /\ (50 < String.length
             (QueryResponse.answer
                (normal_response "What is our loan policy?" sample_response sample_citations)))%nat.
Proof.
  apply (proj1 (proj2 (query_confidence_values memory_t1 "t1"
                         "What is our loan policy?" _ query_memory_t1))).
  reflexivity.
Defined.

(** ** Uploads: the catalog and the index *)

Section Uploads.

Context {E : Env}.

Implicit Types (self : ChatService E) (call : Call) (calls : list Call).

Lemma consistent_init : consistent (@init E).
Proof.
  intros t. cbn. rewrite !lookup_empty. split; intros [x Hx]; discriminate.
Qed.

(** What one upload does for its tenant, in a service whose dictionaries
    have the same keys. *)
Lemma upload_document_effect self (t filename content : string) :
  consistent self ->
  tenant_indices (fst (upload_document self t filename content)) !! t
  = Some (fst (index_insert E (default (new_index E) (tenant_indices self !! t))
                 (document_of (E := E) t filename content)))
  /\ snd (upload_document self t filename content)
     = match snd (index_insert E (default (new_index E) (tenant_indices self !! t))
                    (document_of (E := E) t filename content)) with
       | Ok _ => Ok (document_info (E := E) t filename content)
       | Raise msg => Raise msg
       end
  /\ get_documents (fst (upload_document self t filename content)) t
     = get_documents self t
       ++ match snd (index_insert E (default (new_index E) (tenant_indices self !! t))
                       (document_of (E := E) t filename content)) with
          | Ok _ => [document_info (E := E) t filename content]
          | Raise _ => []
          end
  /\ is_Some (tenant_documents (fst (upload_document self t filename content)) !! t).
Proof.
  intros Hcons. specialize (Hcons t).
  unfold get_documents, upload_document, document_of, document_info; cbv zeta.
  destruct (tenant_indices self !! t) as [idx|] eqn:Hi;
    cbn [tenant_indices tenant_documents default from_option id];
    rewrite ?Hi, ?lookup_insert_eq.
  - destruct (proj1 Hcons ltac:(eauto)) as [docs Hd].
    destruct (index_insert E idx _) as [idx' [[]|msg]];
      cbn [fst snd tenant_indices tenant_documents];
      rewrite ?Hd; cbn [fst snd tenant_indices tenant_documents];
      rewrite ?lookup_insert_eq, ?Hd; cbn [default from_option id];
      rewrite ?app_nil_r; eauto.
  - assert (Hd : tenant_documents self !! t = None).
    { destruct (tenant_documents self !! t) eqn:Hd; [|reflexivity].
      destruct (proj2 Hcons ltac:(eauto)) as [x Hx]. discriminate. }
    destruct (index_insert E (new_index E) _) as [idx' [[]|msg]];
      cbn [fst snd tenant_indices tenant_documents];
      rewrite ?lookup_insert_eq; cbn [fst snd tenant_indices tenant_documents];
      rewrite ?lookup_insert_eq, ?Hd; cbn [default from_option id app]; eauto.
Qed.

Lemma upload_document_consistent self (t filename content : string) :
  consistent self -> consistent (fst (upload_document self t filename content)).
Proof.
  intros Hcons t'. destruct (decide (t = t')) as [<-|Hne].
  - destruct (upload_document_effect self t filename content Hcons)
      as (Hidx & _ & _ & Hdocs).
    rewrite Hidx. split; eauto.
  - pose proof (upload_document_frame self t t' filename content Hne) as Hf.
    unfold corpus in Hf. injection Hf as Hidx Hdocs.
    rewrite Hidx, Hdocs. apply Hcons.
Qed.

Lemma serve_consistent self call :
  consistent self -> consistent (fst (serve self call)).
Proof.
  destruct call as [t f c | t q | t]; cbn [serve fst]; intros Hcons;
    try assumption.
  pose proof (upload_document_consistent self t f c Hcons) as H.
  destruct (upload_document self t f c). exact H.
Qed.

Lemma run_consistent calls self :
  consistent self -> consistent (run self calls).
Proof.
  revert self. induction calls as [|call calls IH]; intros self Hcons.
  - exact Hcons.
  - rewrite run_cons. apply IH. now apply serve_consistent.
Qed.

(** X11: in every state reached from the initial one, whatever the calls
    and their outcomes, the two dictionaries of the service have the same
    tenants: a tenant has an index exactly when it has a catalog. *)
Theorem reachable_consistent calls (tenant_id : string) :
  is_Some (tenant_indices (run (@init E) calls) !! tenant_id)
  <-> is_Some (tenant_documents (run (@init E) calls) !! tenant_id).
Proof. apply (run_consistent calls init consistent_init). Qed.

(** X12: in a service whose dictionaries have the same tenants,
    [upload_document] raises exactly when the insertion into the index
    raises, and with the same message (it never raises a KeyError of its
    own); it returns exactly when the insertion returns, and then returns
    the record built from the tenant id, the file name and the content. *)
Theorem upload_document_outcome self (t filename content : string) :
  consistent self ->
  (forall msg,
      snd (upload_document self t filename content) = Raise msg
      <-> snd (index_insert E (default (new_index E) (tenant_indices self !! t))
                 (document_of (E := E) t filename content)) = Raise msg)
  /\ (forall d,
         snd (upload_document self t filename content) = Ok d
         <-> d = document_info (E := E) t filename content
             /\ snd (index_insert E (default (new_index E) (tenant_indices self !! t))
                       (document_of (E := E) t filename content)) = Ok tt).
Proof.
  intros Hcons.
  destruct (upload_document_effect self t filename content Hcons) as (_ & Hout & _).
  rewrite Hout.
  destruct (snd (index_insert E _ _)) as [[]|m].
  - split; [intros msg; split; discriminate|].
    intros d. split; [intros [= <-]; now split | intros [-> _]; reflexivity].
  - split; [intros msg; split; intros [= ->]; reflexivity|].
    intros d. split; [discriminate | intros [_ H]; discriminate].
Qed.

(** X13: in a service whose dictionaries have the same tenants, an upload
    that returns appends the returned record, and nothing else, at the end
    of its tenant's listing; an upload that raises leaves the listing of
    every tenant as it was. *)
Theorem upload_document_listing self (t filename content : string) :
  consistent self ->
  (forall d, snd (upload_document self t filename content) = Ok d ->
             get_documents (fst (upload_document self t filename content)) t
             = get_documents self t ++ [d])
  /\ (forall msg t',
         snd (upload_document self t filename content) = Raise msg ->
         get_documents (fst (upload_document self t filename content)) t'
         = get_documents self t').
Proof.
  intros Hcons.
  destruct (upload_document_effect self t filename content Hcons)
    as (_ & Hout & Hlist & _).
  split.
  - intros d Hd. rewrite Hlist. rewrite Hout in Hd.
    destruct (snd (index_insert E _ _)) as [[]|m]; [|discriminate].
    now injection Hd as <-.
  - intros msg t' Hraise. destruct (decide (t = t')) as [<-|Hne].
    + rewrite Hlist. rewrite Hout in Hraise.
      destruct (snd (index_insert E _ _)) as [[]|m]; [discriminate|].
      apply app_nil_r.
    + apply get_documents_local. now apply upload_document_frame.
Qed.

(** X14: after any sequence of calls, the listing of a tenant is its
    listing at the start followed by the records that its successful
    uploads returned, in the order of the uploads: nothing is removed,
    reordered or changed, and a failed upload adds nothing. *)
Theorem run_listing calls self (t : string) :
  consistent self ->
  get_documents (run self calls) t
  = get_documents self t ++ uploaded (replies_to t self calls).
Proof.
  revert self. induction calls as [|call calls IH]; intros self Hcons.
  - cbn. now rewrite app_nil_r.
  - rewrite run_cons. cbn [replies_to].
    pose proof (serve_consistent self call Hcons) as Hcons'.
    specialize (IH _ Hcons'). rewrite IH. clear IH.
    destruct (decide (tenant_of call = t)) as [Heq|Hne].
    + destruct call as [t1 f c | t1 q | t1]; cbn [tenant_of] in Heq; subst t1;
        cbn [serve fst snd uploaded]; try reflexivity.
      destruct (upload_document_effect self t f c Hcons) as (_ & Hout & Hlist & _).
      destruct (upload_document self t f c) as [self1 r] eqn:Hup.
      cbn [fst snd] in *. rewrite Hlist, Hout.
      destruct (snd (index_insert E _ _)) as [[]|m]; cbn [uploaded].
      * now rewrite <- app_assoc.
      * now rewrite app_nil_r.
    + pose proof (serve_frame self call t Hne) as Hf.
      destruct (serve self call) as [self1 r]. cbn [fst] in *.
      now rewrite (get_documents_local self1 self t Hf).
Qed.

(** Whatever the service holds, an upload leaves for its tenant the index
    that the insertion yields. *)
Lemma upload_document_index self (t filename content : string) :
  tenant_indices (fst (upload_document self t filename content)) !! t
  = Some (fst (index_insert E (default (new_index E) (tenant_indices self !! t))
                 (document_of (E := E) t filename content))).
Proof.
  unfold upload_document, document_of; cbv zeta.
  destruct (tenant_indices self !! t) as [idx|] eqn:Hi;
    cbn [tenant_indices tenant_documents default from_option id];
    rewrite ?Hi, ?lookup_insert_eq.
  - destruct (index_insert E idx _) as [idx' [[]|msg]];
      cbn [fst snd tenant_indices tenant_documents].
    + destruct (tenant_documents self !! t);
        cbn [fst tenant_indices]; now rewrite lookup_insert_eq.
    + now rewrite lookup_insert_eq.
  - destruct (index_insert E (new_index E) _) as [idx' [[]|msg]];
      cbn [fst snd tenant_indices tenant_documents];
      rewrite ?lookup_insert_eq; cbn [fst tenant_indices];
      now rewrite ?lookup_insert_eq.
Qed.

Lemma run_index_from calls self (t : string) :
  tenant_indices (run self calls) !! t
  = match uploads_of t calls with
    | [] => tenant_indices self !! t
    | files =>
        Some (insert_all t (default (new_index E) (tenant_indices self !! t)) files)
    end.
Proof.
  revert self. induction calls as [|call calls IH]; intros self.
  - reflexivity.
  - rewrite run_cons, IH. clear IH.
    destruct call as [t1 f c | t1 q | t1]; cbn [uploads_of serve fst];
      try reflexivity.
    assert (Hfst : fst (let '(self', r) := upload_document self t1 f c in
                        (self', Uploaded r))
                   = fst (upload_document self t1 f c))
      by now destruct (upload_document self t1 f c).
    rewrite Hfst. clear Hfst. destruct (decide (t1 = t)) as [->|Hne].
    + rewrite upload_document_index. cbn [default from_option id].
      unfold insert_all. cbn [fold_left fst snd].
      now destruct (uploads_of t calls).
    + pose proof (upload_document_frame self t1 t f c Hne) as Hf.
      unfold corpus in Hf. injection Hf as Hidx _. now rewrite Hidx.
Qed.

(** X15: after any sequence of calls from the initial state, a tenant
    under which nothing was uploaded has no index, and otherwise its index
    is the empty index into which the documents of all its uploads, the
    failed ones included, were inserted in the order of the calls. *)
Theorem run_index_contents calls (t : string) :
  tenant_indices (run (@init E) calls) !! t
  = match uploads_of t calls with
    | [] => None
    | files => Some (insert_all t (new_index E) files)
    end.
Proof.
  rewrite run_index_from. cbn [init tenant_indices]. now rewrite lookup_empty.
Qed.

(** X16: uploading twice under the same tenant and file name, with
    whatever contents, gives two records with the same id and name, and
    both are kept: the listing grows by the two records. *)
Theorem upload_document_twice self (t filename content content' : string)
        (d d' : DocumentInfo.t) :
  consistent self ->
  snd (upload_document self t filename content) = Ok d ->
  snd (upload_document (fst (upload_document self t filename content))
         t filename content') = Ok d' ->
  DocumentInfo.id d = DocumentInfo.id d'
  /\ DocumentInfo.name d = DocumentInfo.name d'
  /\ get_documents
       (fst (upload_document (fst (upload_document self t filename content))
               t filename content')) t
     = get_documents self t ++ [d; d'].
Proof.
  intros Hcons Hd Hd'.
  pose proof (upload_document_consistent self t filename content Hcons) as Hcons'.
  destruct (upload_document_effect self t filename content Hcons)
    as (_ & Hout & Hlist & _).
  destruct (upload_document_effect _ t filename content' Hcons')
    as (_ & Hout' & Hlist' & _).
  rewrite Hlist', Hlist. rewrite Hout in Hd. rewrite Hout' in Hd'.
  destruct (snd (index_insert E (default _ (tenant_indices self !! t)) _))
    as [[]|m]; [|discriminate].
  destruct (snd (index_insert E _ (document_of t filename content')))
    as [[]|m]; [|discriminate].
  injection Hd as <-. injection Hd' as <-.
  rewrite <- app_assoc. now cbn.
Qed.

(** X17: every record in a listing reached from the initial state is well
    formed: its type is one of the four categories, its page count is at
    least 1, its status is "ready", and its id is the first 8 characters of
    the digest of "{tenant_id}_{name}", 8 characters long. *)
Theorem run_listing_well_formed calls (t : string) (d : DocumentInfo.t) :
  In d (get_documents (run (@init E) calls) t) ->
  In (DocumentInfo.type d) ["Policy"; "Handbook"; "Finance"; "Document"]
  /\ (1 <= DocumentInfo.pages d)%Z
  /\ DocumentInfo.status d = "ready"
  /\ DocumentInfo.id d
     = slice_to 8 (md5_hexdigest E (t +:+ "_" +:+ DocumentInfo.name d))
  /\ String.length (DocumentInfo.id d) = 8%nat.
Proof.
  intros Hin. apply run_catalog in Hin.
  destruct Hin as [Hin | (f & c & _ & ->)].
  - unfold get_documents in Hin. cbn [init tenant_documents] in Hin.
    rewrite lookup_empty in Hin. destruct Hin.
  - unfold document_info.
    cbn [DocumentInfo.type DocumentInfo.pages DocumentInfo.status
         DocumentInfo.id DocumentInfo.name].
    split; [apply detect_document_type_range|].
    split; [apply estimate_pages_ge_1|].
    split; [reflexivity|]. split; [reflexivity | apply doc_id_length].
Qed.

(** X18: after any sequence of calls from the initial state, [query]
    gives the "no documents" response for a tenant exactly when no upload
    was made under that tenant, whether it succeeded or not. *)
Theorem query_no_documents_iff_no_upload calls (t question : string) :
  query (run (@init E) calls) t question = Ok no_documents_response
  <-> uploads_of t calls = [].
Proof.
  split.
  - intros Hq. apply query_no_documents_inv in Hq.
    rewrite run_index_from in Hq. now destruct (uploads_of t calls).
  - intros Hnone. unfold query. rewrite run_index_from, Hnone.
    cbn [init tenant_indices]. now rewrite lookup_empty.
Qed.

End Uploads.

(** ** Uploads on the sample service *)

Lemma memory_t1_consistent : consistent memory_t1.
Proof.
  exact (upload_document_consistent init "t1" "loan_policy.txt" lending_text
           consistent_init).
Qed.

Lemma upload_document_outcome_witness :
  snd (upload_document memory_t1 "t1" "budget.txt" "revenue and budget")
  = Ok (document_info (E := Sample.memory) "t1" "budget.txt" "revenue and budget").
Proof.
  apply (proj2 (upload_document_outcome memory_t1 "t1" "budget.txt"
                  "revenue and budget" memory_t1_consistent)).
  split; reflexivity.
Defined.

Lemma upload_document_listing_witness :
  get_documents
    (fst (upload_document memory_t1 "t1" "budget.txt" "revenue and budget")) "t1"
  = get_documents memory_t1 "t1"
    ++ [document_info (E := Sample.memory) "t1" "budget.txt" "revenue and budget"].
Proof.
  apply (proj1 (upload_document_listing memory_t1 "t1" "budget.txt"
                  "revenue and budget" memory_t1_consistent)).
  vm_compute. reflexivity.
Defined.

Lemma run_listing_witness :
  get_documents
    (run memory_t1
         [Upload "t2" "hr_handbook.txt" "employee onboarding";
          Query "t1" "Who runs the training?";
          Upload "t1" "budget.txt" "revenue and budget"]) "t1"
  = get_documents memory_t1 "t1"
    ++ uploaded
         (replies_to "t1" memory_t1
            [Upload "t2" "hr_handbook.txt" "employee onboarding";
             Query "t1" "Who runs the training?";
             Upload "t1" "budget.txt" "revenue and budget"]).
Proof.
  exact (run_listing
           [Upload "t2" "hr_handbook.txt" "employee onboarding";
            Query "t1" "Who runs the training?";
            Upload "t1" "budget.txt" "revenue and budget"]
           memory_t1 "t1" memory_t1_consistent).
Defined.

Lemma upload_document_twice_witness :
  DocumentInfo.id (document_info (E := Sample.memory) "t1" "loan_policy.txt" lending_text)
  = DocumentInfo.id
      (document_info (E := Sample.memory) "t1" "loan_policy.txt" "a revised text")
  /\ DocumentInfo.name
       (document_info (E := Sample.memory) "t1" "loan_policy.txt" lending_text)
     = DocumentInfo.name
         (document_info (E := Sample.memory) "t1" "loan_policy.txt" "a revised text")
  /\ get_documents
       (fst (upload_document
               (fst (upload_document (@init Sample.memory) "t1" "loan_policy.txt"
                       lending_text))
               "t1" "loan_policy.txt" "a revised text")) "t1"
     = get_documents (@init Sample.memory) "t1"
       ++ [document_info (E := Sample.memory) "t1" "loan_policy.txt" lending_text;
           document_info (E := Sample.memory) "t1" "loan_policy.txt" "a revised text"].
Proof.
  apply (upload_document_twice (@init Sample.memory) "t1" "loan_policy.txt"
           lending_text "a revised text" _ _ consistent_init).
  - vm_compute. reflexivity.
  - vm_compute. reflexivity.
Defined.

Lemma run_listing_well_formed_witness :
  In (DocumentInfo.type
        (document_info (E := Sample.memory) "t1" "loan_policy.txt" lending_text))
     ["Policy"; "Handbook"; "Finance"; "Document"]
  /\ (1 <= DocumentInfo.pages
             (document_info (E := Sample.memory) "t1" "loan_policy.txt" lending_text))%Z
  /\ DocumentInfo.status
       (document_info (E := Sample.memory) "t1" "loan_policy.txt" lending_text)
     = "ready"
  /\ DocumentInfo.id
       (document_info (E := Sample.memory) "t1" "loan_policy.txt" lending_text)
     = slice_to 8
         (md5_hexdigest Sample.memory
            ("t1" +:+ "_"
             +:+ DocumentInfo.name
                   (document_info (E := Sample.memory) "t1" "loan_policy.txt"
                      lending_text)))
  /\ String.length
       (DocumentInfo.id
          (document_info (E := Sample.memory) "t1" "loan_policy.txt" lending_text))
     = 8%nat.
Proof.
  apply (run_listing_well_formed
           [Upload "t1" "loan_policy.txt" lending_text] "t1"
           (document_info (E := Sample.memory) "t1" "loan_policy.txt" lending_text)).
  vm_compute. left. reflexivity.
Defined.

(** ** The route handlers of main.py *)

Section RouteProperties.

Context {E : Env}.
Context (str_http : Z -> string -> string).
Context (is_unicode_decode_error : string -> bool).

Implicit Types (self : ChatService E) (file_read : result string).

(** X19: a document whose text, stripped of surrounding whitespace, has
    fewer than 50 characters is not handed to the service, which stays as it
    is; the HTTPException of status 400 raised for it is caught by the
    handler's own [except Exception], so the reply has status 500 and the
    detail "Upload failed: " followed by the text of the 400 exception. *)
Theorem upload_route_too_short self (text_content filename x_tenant_id : string) :
  (String.length (strip text_content) < 50)%nat ->
  Main.upload_document str_http is_unicode_decode_error
    self (Ok text_content) filename x_tenant_id
  = (self,
     HTTPException 500
       ("Upload failed: " +:+ str_http 400 "Document too short or empty")).
Proof.
  intros Hshort. unfold Main.upload_document.
  apply Nat.ltb_lt in Hshort. now rewrite Hshort.
Qed.

(** X20: the upload handler lets no exception through: it returns a record
    or raises an HTTPException of status 500 or 400, and 400 only when
    reading the file or the service raised a UnicodeDecodeError, with the
    detail "Unable to read file. Please upload text-based documents.". *)
Theorem upload_route_failures self file_read (filename x_tenant_id : string) :
  (forall msg,
      snd (Main.upload_document str_http is_unicode_decode_error
             self file_read filename x_tenant_id) <> Exception msg)
  /\ (forall status detail,
         snd (Main.upload_document str_http is_unicode_decode_error
                self file_read filename x_tenant_id)
         = HTTPException status detail ->
         (status = 500%Z /\ exists m, detail = "Upload failed: " +:+ m)
         \/ (status = 400%Z
             /\ detail = "Unable to read file. Please upload text-based documents."
             /\ exists msg,
                 is_unicode_decode_error msg = true
                 /\ (file_read = Raise msg
                     \/ exists text_content,
                         file_read = Ok text_content
                         /\ snd (upload_document self x_tenant_id filename text_content)
                            = Raise msg))).
Proof.
  unfold Main.upload_document.
  destruct file_read as [text_content|msg0].
  - destruct (String.length (strip text_content) <? 50)%nat; cbn [snd].
    + split; [discriminate|]. intros status detail [= <- <-]. left. eauto.
    + destruct (upload_document self x_tenant_id filename text_content)
        as [self1 [d|msg1]] eqn:Hup; cbn [snd].
      * split; discriminate.
      * destruct (is_unicode_decode_error msg1) eqn:Hcls.
        -- split; [discriminate|]. intros status detail [= <- <-]. right.
           split; [reflexivity|]. split; [reflexivity|].
           exists msg1. split; [exact Hcls|]. right. exists text_content.
           split; [reflexivity|]. now rewrite Hup.
        -- split; [discriminate|]. intros status detail [= <- <-]. left. eauto.
  - cbn [snd]. destruct (is_unicode_decode_error msg0) eqn:Hcls.
    + split; [discriminate|]. intros status detail [= <- <-]. right.
      split; [reflexivity|]. split; [reflexivity|].
      exists msg0. split; [exact Hcls | now left].
    + split; [discriminate|]. intros status detail [= <- <-]. left. eauto.
Qed.

(** X21: the upload handler returns a record only for a text of at least
    50 characters once stripped, and then it is the record the service
    returned and the service is as the service call left it; and whenever
    the handler changes the service at all, the text had at least 50
    characters once stripped. *)
Theorem upload_route_stores self file_read (filename x_tenant_id : string) :
  (forall d,
      snd (Main.upload_document str_http is_unicode_decode_error
             self file_read filename x_tenant_id) = Return d ->
      exists text_content,
        file_read = Ok text_content
        /\ (50 <= String.length (strip text_content))%nat
        /\ upload_document self x_tenant_id filename text_content
           = (fst (Main.upload_document str_http is_unicode_decode_error
                     self file_read filename x_tenant_id),
              Ok d))
  /\ (fst (Main.upload_document str_http is_unicode_decode_error
             self file_read filename x_tenant_id) = self
      \/ exists text_content,
          file_read = Ok text_content
          /\ (50 <= String.length (strip text_content))%nat
          /\ fst (Main.upload_document str_http is_unicode_decode_error
                    self file_read filename x_tenant_id)
             = fst (upload_document self x_tenant_id filename text_content)).
Proof.
  unfold Main.upload_document.
  destruct file_read as [text_content|msg0].
  - destruct (Nat.ltb_spec (String.length (strip text_content)) 50) as [Hlt|Hge];
      cbn [fst snd].
    + split; [discriminate | now left].
    + destruct (upload_document self x_tenant_id filename text_content)
        as [self1 [d|msg1]] eqn:Hup; cbn [fst snd].
      * split.
        -- intros d' [= <-]. exists text_content.
           split; [reflexivity|]. split; [exact Hge | exact Hup].
        -- right. exists text_content.
           split; [reflexivity|]. split; [exact Hge | now rewrite Hup].
      * split.
        -- destruct (is_unicode_decode_error msg1); discriminate.
        -- right. exists text_content.
           split; [reflexivity|]. split; [exact Hge | now rewrite Hup].
  - cbn [fst snd]. split; [|now left].
    destruct (is_unicode_decode_error msg0); discriminate.
Qed.

(** X22: the query handler raises HTTPException 403 "Tenant ID mismatch",
    without looking at the service, when the tenant of the body differs
    from the tenant of the header; otherwise it returns the response of
    [query] for that tenant; it raises nothing else. *)
Theorem query_route_outcome self (request : QueryRequest.t) (x_tenant_id : string) :
  (QueryRequest.tenant_id request <> x_tenant_id ->
   forall self' : ChatService E,
     Main.query_documents self' request x_tenant_id
     = HTTPException 403 "Tenant ID mismatch")
  /\ (QueryRequest.tenant_id request = x_tenant_id ->
      exists r,
        query self x_tenant_id (QueryRequest.question request) = Ok r
        /\ Main.query_documents self request x_tenant_id = Return r).
Proof.
  unfold Main.query_documents. split.
  - intros Hne self'. now rewrite bool_decide_eq_false_2.
  - intros Heq. rewrite bool_decide_eq_true_2 by assumption. cbn [negb].
    rewrite Heq.
    destruct (query_cases self x_tenant_id (QueryRequest.question request))
      as [[_ H] | [(idx & e & _ & _ & H) | (idx & resp & citations & _ & _ & _ & H)]];
      rewrite H; eauto.
Qed.

End RouteProperties.

Lemma upload_route_too_short_witness :
  Main.upload_document sample_str_http sample_is_unicode_decode_error
    memory_t1 (Ok "   a short note about loans    ") "note.txt" "t1"
  = (memory_t1,
     HTTPException 500 "Upload failed: 400: Document too short or empty")
  /\ Main.upload_document sample_str_http sample_is_unicode_decode_error
       memory_t1 (Ok padded_text) "note.txt" "t1"
     = (memory_t1,
        HTTPException 500 "Upload failed: 400: Document too short or empty").
Proof.
  split.
  - apply (upload_route_too_short sample_str_http sample_is_unicode_decode_error
             memory_t1 "   a short note about loans    " "note.txt" "t1").
    vm_compute. lia.
  - apply (upload_route_too_short sample_str_http sample_is_unicode_decode_error
             memory_t1 padded_text "note.txt" "t1").
    vm_compute. lia.
Defined.

(** The whitespace that [strip] removes includes the no-break space and the
    next-line character. *)
Example strip_padded_text :
  String.length padded_text = 60%nat
  /\ strip padded_text = Sample.str_repeat "a" 40
  /\ strip (String (ascii_of_nat 133) " x ") = "x".
Proof. vm_compute. repeat split. Qed.

Lemma upload_route_failures_witness :
  (500 = 500 /\ exists m, "Upload failed: Connection refused" = "Upload failed: " +:+ m)%Z
  \/ (500 = 400
      /\ "Upload failed: Connection refused"
         = "Unable to read file. Please upload text-based documents."
      /\ exists msg,
          sample_is_unicode_decode_error msg = true
          /\ (Ok lending_text = Raise msg
              \/ exists text_content,
                  Ok lending_text = Ok text_content
                  /\ snd (upload_document (@init Sample.offline) "t1"
                            "loan_policy.txt" text_content)
                     = Raise msg))%Z.
Proof.
  apply (proj2 (upload_route_failures sample_str_http sample_is_unicode_decode_error
                  (@init Sample.offline) (Ok lending_text) "loan_policy.txt" "t1")
           500%Z "Upload failed: Connection refused").
  vm_compute. reflexivity.
Defined.

Lemma upload_route_stores_witness :
  exists text_content,
    Ok lending_text = Ok text_content
    /\ (50 <= String.length (strip text_content))%nat
    /\ upload_document (@init Sample.memory) "t1" "loan_policy.txt" text_content
       = (fst (Main.upload_document sample_str_http sample_is_unicode_decode_error
                 (@init Sample.memory) (Ok lending_text) "loan_policy.txt" "t1"),
          Ok (document_info (E := Sample.memory) "t1" "loan_policy.txt" lending_text)).
Proof.
  apply (proj1 (upload_route_stores sample_str_http sample_is_unicode_decode_error
                  (@init Sample.memory) (Ok lending_text) "loan_policy.txt" "t1")).
  vm_compute. reflexivity.
Defined.

Lemma query_route_outcome_witness :
  Main.query_documents memory_t1
    (QueryRequest.mk "t2" "What is our loan policy?") "t1"
  = HTTPException 403 "Tenant ID mismatch".
Proof.
  apply (proj1 (query_route_outcome memory_t1
                  (QueryRequest.mk "t2" "What is our loan policy?") "t1")).
  cbn. discriminate.
Defined.

(** ** Queries after a failed upload *)

(** C1, evaluated where the code departs from it. After an upload under a
    tenant, whether it returned or raised, [query] never gives that tenant
    the "no documents" response. So a tenant whose only upload failed, for
    which no ingestion has succeeded and whose listing is empty, is not
    answered with the fixed response: with the model server still
    unreachable it gets the error response, and once the engine answers it
    gets what the engine says about the empty index, with confidence 0.3
    and no knowledge gap. *)
Theorem query_after_failed_upload :
  (forall (E : Env) (self : ChatService E) (t filename content question : string),
      query (fst (upload_document self t filename content)) t question
      <> Ok no_documents_response)
  /\ snd (upload_document (@init Sample.offline) "t1" "loan_policy.txt" lending_text)
     = Raise "Connection refused"
  /\ uploaded (replies_to "t1" (@init Sample.offline)
                 [Upload "t1" "loan_policy.txt" lending_text]) = []
  /\ get_documents
       (run (@init Sample.offline) [Upload "t1" "loan_policy.txt" lending_text]) "t1"
     = []
  /\ query
       (run (@init Sample.offline) [Upload "t1" "loan_policy.txt" lending_text])
       "t1" "What is our loan policy?"
     = Ok (QueryResponse.mk
             "I encountered an error while searching your documents: Connection refused"
             [] 0.0%float true (Some ["Please try rephrasing your question"]))
  /\ uploaded (replies_to "t1" (@init Sample.insert_down)
                 [Upload "t1" "loan_policy.txt" lending_text]) = []
  /\ query
       (run (@init Sample.insert_down) [Upload "t1" "loan_policy.txt" lending_text])
       "t1" "What is our loan policy?"
     = Ok (QueryResponse.mk "Empty Response" [] 0.3%float false None).
Proof.
  split.
  - intros E self t filename content question Hq.
    apply query_no_documents_inv in Hq.
    destruct (upload_document_creates_index self t filename content) as [idx Hidx].
    rewrite Hidx in Hq. discriminate Hq.
  - repeat split; vm_compute; reflexivity.
Qed.
